(** * AI Search Transparency: the query orchestrator and the search state machine

  A shallow embedding of [src/App.tsx] (the [App] component and the
  [aiService] module that follows it) and of
  [src/components/SearchComponents.tsx].

  - [JS]: the fragment of JavaScript values the program touches
    (strings as UTF-16 code units, truthiness, [trim], property reads
    and strict-mode property writes).
  - [JSON]: [JSON.parse], as a recursive-descent parser.
  - [AiService]: [getAIClient] and [performTransparentSearch], in a
    small trace-and-exception monad.
  - [Components]: [SearchInput.handleSubmit].
  - [App]: the state held by [App], [handleSearch], [filteredResults],
    the element tree [App] returns, and the event loop around them.
  - [Fixture]: concrete configurations, backends and answers.
  - [Shape], [Page], [Sources], [Copying]: what the further properties
    are stated with: a body read as the interface declares it, the
    screens of the page and what every reachable state satisfies, the
    host names under the answer, and the copy buttons.

  The properties follow: [JSONFacts] and [JSFacts] on the parser and on
  values, [AiServiceFacts], [OrchestratorClaims] and [OrchestratorMore]
  on the orchestrator, [AppFacts], [AppClaims], [PageFacts] and
  [GridFacts] on the page, [EndToEnd] on the two together, and
  [SourcesFacts] and [CopyingFacts] on the rest of the tree. *)

From Stdlib Require Import List NArith Bool String Ascii Arith Lia.
Import ListNotations.

Set Warnings "-register-all".

(* ================================================================== *)
(** ** JavaScript values *)

Module JS.

(** A JavaScript string is a sequence of 16-bit code units. *)
Definition code_unit := N.
Definition jsstring := list code_unit.

(** ASCII literals of the source text. *)
Definition lit (s : string) : jsstring :=
  map N_of_ascii (list_ascii_of_string s).

(** The double quote, which the literals above cannot carry. *)
Definition dquote : code_unit := 34%N.

(** A literal in which the apostrophe stands for the double quote. *)
Definition quoted (s : string) : jsstring :=
  map (fun c => if N.eqb c 39 then dquote else c) (lit s).

Fixpoint str_eqb (a b : jsstring) : bool :=
  match a, b with
  | [], [] => true
  | x :: a', y :: b' => N.eqb x y && str_eqb a' b'
  | _, _ => false
  end.

(** [s] used as a condition: the empty string is falsy. *)
Definition truthy_string (s : jsstring) : bool :=
  match s with [] => false | _ :: _ => true end.

(** [o] used as a condition where [o] is [string | undefined] or
    [string | null]. *)
Definition truthy_opt (o : option jsstring) : bool :=
  match o with None => false | Some s => truthy_string s end.

(** [a || b] on [string | undefined]. *)
Definition or_else (a b : option jsstring) : option jsstring :=
  if truthy_opt a then a else b.

(** ECMAScript WhiteSpace and LineTerminator code points, the set
    [String.prototype.trim] strips. *)
Definition is_white_space (c : code_unit) : bool :=
  (N.eqb c 9 || N.eqb c 10 || N.eqb c 11 || N.eqb c 12 || N.eqb c 13
   || N.eqb c 32 || N.eqb c 160 || N.eqb c 5760
   || (N.leb 8192 c && N.leb c 8202)
   || N.eqb c 8232 || N.eqb c 8233 || N.eqb c 8239 || N.eqb c 8287
   || N.eqb c 12288 || N.eqb c 65279)%bool.

Fixpoint trim_start (s : jsstring) : jsstring :=
  match s with
  | c :: s' => if is_white_space c then trim_start s' else s
  | [] => []
  end.

Definition trim_end (s : jsstring) : jsstring :=
  rev (trim_start (rev s)).

Definition trim (s : jsstring) : jsstring := trim_end (trim_start s).

(** Values.  A number produced by [JSON.parse] is kept as the text of
    its literal: the program never computes with one.  An array
    carries its elements and the named properties assigned to it. *)
Inductive value : Type :=
| VUndefined
| VNull
| VBool (b : bool)
| VNumber (literal : jsstring)
| VString (s : jsstring)
| VArray (elems : list value) (named : list (jsstring * value))
| VObject (props : list (jsstring * value)).

Definition props := list (jsstring * value).

Fixpoint lookup (k : jsstring) (ps : props) : option value :=
  match ps with
  | [] => None
  | (k', v) :: ps' => if str_eqb k k' then Some v else lookup k ps'
  end.

(** [CreateDataProperty] / [Set] on an ordinary object: an existing
    key keeps its place, a new key goes last. *)
Fixpoint define (k : jsstring) (v : value) (ps : props) : props :=
  match ps with
  | [] => [(k, v)]
  | (k', v') :: ps' =>
      if str_eqb k k' then (k, v) :: ps' else (k', v') :: define k v ps'
  end.

(** What a thrown value is. *)
Inductive exn : Type :=
| Error (message : jsstring)
| TypeError
| SyntaxError
| Rejected (reason : jsstring).

Inductive completion (A : Type) : Type :=
| Normal (a : A)
| Throw (e : exn).
Arguments Normal {A} a.
Arguments Throw {A} e.

(** [v.k] for a property name [k] that no built-in prototype defines
    and that is neither [length] nor an index (the program reads
    [keywords], [results], [actualQueries], [isFastMode], [answer]). *)
Definition get (v : value) (k : jsstring) : completion value :=
  match v with
  | VUndefined | VNull => Throw TypeError
  | VBool _ | VNumber _ | VString _ => Normal VUndefined
  | VArray _ named => Normal (match lookup k named with Some x => x | None => VUndefined end)
  | VObject ps => Normal (match lookup k ps with Some x => x | None => VUndefined end)
  end.

(** [v.k = x] in module (strict) code, for the same kind of name:
    assigning to a property of a primitive throws. *)
Definition put (v : value) (k : jsstring) (x : value) : completion value :=
  match v with
  | VUndefined | VNull => Throw TypeError
  | VBool _ | VNumber _ | VString _ => Throw TypeError
  | VArray es named => Normal (VArray es (define k x named))
  | VObject ps => Normal (VObject (define k x ps))
  end.

Definition array_of_strings (l : list jsstring) : value :=
  VArray (map VString l) [].

(** Only objects and arrays take an assignment. *)
Definition is_object (v : value) : bool :=
  match v with VArray _ _ | VObject _ => true | _ => false end.

Definition elements_of (v : value) : list value :=
  match v with VArray es _ => es | _ => [] end.

End JS.

Import JS.

(* ================================================================== *)
(** ** [JSON.parse] *)

Module JSON.

Inductive presult (A : Type) : Type :=
| POk (a : A) (rest : jsstring)
| PSyntax
| PFuel.
Arguments POk {A} a rest.
Arguments PSyntax {A}.
Arguments PFuel {A}.

Definition is_json_ws (c : code_unit) : bool :=
  (N.eqb c 9 || N.eqb c 10 || N.eqb c 13 || N.eqb c 32)%bool.

Fixpoint skip_ws (s : jsstring) : jsstring :=
  match s with
  | c :: s' => if is_json_ws c then skip_ws s' else s
  | [] => []
  end.

Definition is_digit (c : code_unit) : bool := (N.leb 48 c && N.leb c 57)%bool.

Definition hex_digit (c : code_unit) : option N :=
  if (N.leb 48 c && N.leb c 57)%bool then Some (c - 48)%N
  else if (N.leb 65 c && N.leb c 70)%bool then Some (c - 55)%N
  else if (N.leb 97 c && N.leb c 102)%bool then Some (c - 87)%N
  else None.

Definition hex4 (a b c d : code_unit) : option code_unit :=
  match hex_digit a, hex_digit b, hex_digit c, hex_digit d with
  | Some x, Some y, Some z, Some w => Some (((x * 16 + y) * 16 + z) * 16 + w)%N
  | _, _, _, _ => None
  end.

Definition escape (c : code_unit) : option code_unit :=
  if N.eqb c 34 then Some 34%N          (* quote *)
  else if N.eqb c 92 then Some 92%N     (* backslash *)
  else if N.eqb c 47 then Some 47%N     (* slash *)
  else if N.eqb c 98 then Some 8%N      (* escape b *)
  else if N.eqb c 102 then Some 12%N    (* escape f *)
  else if N.eqb c 110 then Some 10%N    (* escape n *)
  else if N.eqb c 114 then Some 13%N    (* escape r *)
  else if N.eqb c 116 then Some 9%N     (* escape t *)
  else None.

(** The characters of a string literal, after its opening quote. *)
Fixpoint string_chars (acc : jsstring) (s : jsstring) : presult jsstring :=
  match s with
  | [] => PSyntax
  | c :: s' =>
      if N.eqb c 34 then POk (rev acc) s'
      else if N.eqb c 92 then
        match s' with
        | [] => PSyntax
        | e :: s'' =>
            if N.eqb e 117 then
              match s'' with
              | h1 :: h2 :: h3 :: h4 :: s''' =>
                  match hex4 h1 h2 h3 h4 with
                  | Some u => string_chars (u :: acc) s'''
                  | None => PSyntax
                  end
              | _ => PSyntax
              end
            else
              match escape e with
              | Some u => string_chars (u :: acc) s''
              | None => PSyntax
              end
        end
      else if N.ltb c 32 then PSyntax
      else string_chars (c :: acc) s'
  end.

Fixpoint digits (acc : jsstring) (s : jsstring) : jsstring * jsstring :=
  match s with
  | c :: s' => if is_digit c then digits (c :: acc) s' else (rev acc, s)
  | [] => (rev acc, [])
  end.

(** A number literal: an optional minus, then 0 or a digit string not
    starting with 0, then an optional fraction (a dot and at least one
    digit), then an optional exponent (e or E, an optional sign, at
    least one digit).  Each part returns its text and what follows;
    [None] is a syntax error. *)
Definition opt_sign (allowed : code_unit -> bool) (s : jsstring) : jsstring * jsstring :=
  match s with
  | c :: s' => if allowed c then ([c], s') else ([], s)
  | [] => ([], s)
  end.

Definition int_part (s : jsstring) : option (jsstring * jsstring) :=
  match s with
  | d :: s' =>
      if negb (is_digit d) then None
      else if N.eqb d 48 then Some ([d], s')
      else let '(ds, r) := digits [] s' in Some (d :: ds, r)
  | [] => None
  end.

Definition frac_part (s : jsstring) : option (jsstring * jsstring) :=
  match s with
  | p :: s' =>
      if N.eqb p 46 then
        match digits [] s' with
        | ([], _) => None
        | (ds, r) => Some (p :: ds, r)
        end
      else Some ([], s)
  | [] => Some ([], s)
  end.

Definition exp_part (s : jsstring) : option (jsstring * jsstring) :=
  match s with
  | e :: s' =>
      if (N.eqb e 101 || N.eqb e 69)%bool then
        let '(sg, s'') := opt_sign (fun c => (N.eqb c 43 || N.eqb c 45)%bool) s' in
        match digits [] s'' with
        | ([], _) => None
        | (ds, r) => Some (e :: sg ++ ds, r)
        end
      else Some ([], s)
  | [] => Some ([], s)
  end.

Definition number (s : jsstring) : presult jsstring :=
  let '(sign, s1) := opt_sign (fun c => N.eqb c 45) s in
  match int_part s1 with
  | None => PSyntax
  | Some (int, s2) =>
      match frac_part s2 with
      | None => PSyntax
      | Some (fr, s3) =>
          match exp_part s3 with
          | None => PSyntax
          | Some (ex, s4) => POk (sign ++ int ++ fr ++ ex) s4
          end
      end
  end.

Fixpoint expect (word : jsstring) (s : jsstring) : option jsstring :=
  match word, s with
  | [], _ => Some s
  | w :: word', c :: s' => if N.eqb w c then expect word' s' else None
  | _ :: _, [] => None
  end.

Fixpoint value_ (fuel : nat) (s : jsstring) : presult value :=
  match fuel with
  | O => PFuel
  | S fuel' =>
      match skip_ws s with
      | [] => PSyntax
      | c :: s' =>
          if N.eqb c 123 then                       (* { *)
            match skip_ws s' with
            | c' :: s'' =>
                if N.eqb c' 125 then POk (VObject []) s''
                else
                  match members fuel' [] s' with
                  | POk ps r => POk (VObject ps) r
                  | PSyntax => PSyntax
                  | PFuel => PFuel
                  end
            | [] => PSyntax
            end
          else if N.eqb c 91 then                   (* [ *)
            match skip_ws s' with
            | c' :: s'' =>
                if N.eqb c' 93 then POk (VArray [] []) s''
                else
                  match elements fuel' [] s' with
                  | POk es r => POk (VArray es []) r
                  | PSyntax => PSyntax
                  | PFuel => PFuel
                  end
            | [] => PSyntax
            end
          else if N.eqb c 34 then                   (* string *)
            match string_chars [] s' with
            | POk str r => POk (VString str) r
            | PSyntax => PSyntax
            | PFuel => PFuel
            end
          else if N.eqb c 116 then                  (* true *)
            match expect (lit "rue") s' with
            | Some r => POk (VBool true) r
            | None => PSyntax
            end
          else if N.eqb c 102 then                  (* false *)
            match expect (lit "alse") s' with
            | Some r => POk (VBool false) r
            | None => PSyntax
            end
          else if N.eqb c 110 then                  (* null *)
            match expect (lit "ull") s' with
            | Some r => POk VNull r
            | None => PSyntax
            end
          else
            match number (c :: s') with
            | POk n r => POk (VNumber n) r
            | PSyntax => PSyntax
            | PFuel => PFuel
            end
      end
  end

(** Elements of a non-empty array, up to and including its bracket. *)
with elements (fuel : nat) (acc : list value) (s : jsstring) : presult (list value) :=
  match fuel with
  | O => PFuel
  | S fuel' =>
      match value_ fuel' s with
      | POk v r =>
          match skip_ws r with
          | c :: r' =>
              if N.eqb c 44 then elements fuel' (v :: acc) r'
              else if N.eqb c 93 then POk (rev (v :: acc)) r'
              else PSyntax
          | [] => PSyntax
          end
      | PSyntax => PSyntax
      | PFuel => PFuel
      end
  end

(** Members of a non-empty object, up to and including its brace.  A
    repeated key overwrites the earlier value. *)
with members (fuel : nat) (acc : props) (s : jsstring) : presult props :=
  match fuel with
  | O => PFuel
  | S fuel' =>
      match skip_ws s with
      | q :: s1 =>
          if N.eqb q 34 then
            match string_chars [] s1 with
            | POk k s2 =>
                match skip_ws s2 with
                | colon :: s3 =>
                    if N.eqb colon 58 then
                      match value_ fuel' s3 with
                      | POk v r =>
                          match skip_ws r with
                          | c :: r' =>
                              if N.eqb c 44 then members fuel' (define k v acc) r'
                              else if N.eqb c 125 then POk (define k v acc) r'
                              else PSyntax
                          | [] => PSyntax
                          end
                      | PSyntax => PSyntax
                      | PFuel => PFuel
                      end
                    else PSyntax
                | [] => PSyntax
                end
            | PSyntax => PSyntax
            | PFuel => PFuel
            end
          else PSyntax
      | [] => PSyntax
      end
  end.

(** Each parser consumes input when it succeeds, and answers when its
    fuel is twice the length of the input and a little more. *)
Definition consumes (fuel : nat) : Prop :=
  (forall s v r, value_ fuel s = POk v r -> List.length r < List.length s) /\
  (forall acc s es r, elements fuel acc s = POk es r -> List.length r < List.length s) /\
  (forall acc s ps r, members fuel acc s = POk ps r -> List.length r < List.length s).

Definition answers (fuel : nat) : Prop :=
  (forall s, 2 * List.length s + 1 <= fuel -> value_ fuel s <> PFuel) /\
  (forall acc s, 2 * List.length s + 2 <= fuel -> elements fuel acc s <> PFuel) /\
  (forall acc s, 2 * List.length s + 2 <= fuel -> members fuel acc s <> PFuel).

(** [JSON.parse(text)]: [None] is the [SyntaxError]. *)
Definition parse (text : jsstring) : option value :=
  match value_ (2 * List.length text + 2) text with
  | POk v rest => match skip_ws rest with [] => Some v | _ :: _ => None end
  | PSyntax => None
  | PFuel => None
  end.

End JSON.

(* ================================================================== *)
(** ** The aiService module *)

Module AiService.

(** [import.meta.env] and [process], as far as [getAIClient] reads
    them; [process = None] is [typeof process === 'undefined']. *)
Record ProcessEnv : Type := { GEMINI_API_KEY : option jsstring }.

Record Env : Type := {
  VITE_GEMINI_API_KEY : option jsstring;
  process : option ProcessEnv
}.

Record GoogleGenAI : Type := { apiKey : jsstring }.

Definition api_key_missing : jsstring :=
  lit "API Key Missing: Please set VITE_GEMINI_API_KEY in your Vercel Environment Variables and redeploy.".

Definition configured_key (env : Env) : option jsstring :=
  or_else (VITE_GEMINI_API_KEY env)
          (match process env with
           | Some p => GEMINI_API_KEY p
           | None => None
           end).

Definition getAIClient (env : Env) : completion GoogleGenAI :=
  let apiKey := configured_key env in
  match apiKey with
  | Some k => if truthy_string k then Normal {| apiKey := k |}
              else Throw (Error api_key_missing)
  | None => Throw (Error api_key_missing)
  end.

(** The request handed to [ai.models.generateContent], with the key
    of the client that sends it. *)
Inductive Tool : Type := googleSearch.

Record Config : Type := {
  responseMimeType : jsstring;
  tools : option (list Tool)
}.

Record Request : Type := {
  credential : jsstring;
  req_model : jsstring;
  contents : jsstring;
  req_config : Config
}.

(** The part of the backend's response the orchestrator reads. *)
Record GroundingMetadata : Type := { webSearchQueries : option (list jsstring) }.
Record Candidate : Type := { groundingMetadata : option GroundingMetadata }.
Record Response : Type := {
  text : option jsstring;
  candidates : option (list Candidate)
}.

(** Everything outside the module: the configuration and the hosted
    model, which answers a request or rejects it. *)
Record World : Type := {
  env : Env;
  generateContent : Request -> completion Response
}.

(** *** Effects: a trace of what the call did, and exceptions *)

Inductive logged : Type :=
| LogText (t : jsstring)
| LogExn (e : exn).

Inductive event : Type :=
| NetworkRequest (r : Request)
| ParseAttempt (text : jsstring)
| ConsoleError (label : jsstring) (what : logged).

Definition M (A : Type) : Type := (list event * completion A)%type.

Definition ret {A} (a : A) : M A := ([], Normal a).
Definition throw {A} (e : exn) : M A := ([], Throw e).
Definition emit (ev : event) : M unit := ([ev], Normal tt).
Definition lift {A} (c : completion A) : M A := ([], c).

Definition bind {A B} (m : M A) (f : A -> M B) : M B :=
  match m with
  | (t, Normal a) => let '(t', c) := f a in (t ++ t', c)
  | (t, Throw e) => (t, Throw e)
  end.

Definition try_catch {A} (m : M A) (handler : exn -> M A) : M A :=
  match m with
  | (t, Normal a) => (t, Normal a)
  | (t, Throw e) => let '(t', c) := handler e in (t ++ t', c)
  end.

Declare Scope js_scope.
Delimit Scope js_scope with js.
Notation "x <- m ;; k" := (bind m (fun x => k))
  (at level 61, m at next level, right associativity) : js_scope.
Notation "m ;; k" := (bind m (fun _ => k))
  (at level 61, right associativity) : js_scope.
Local Open Scope js_scope.

(** *** The two prompt templates *)

Definition fast_prompt (userQuery : jsstring) : jsstring :=
  lit "
    You are an AI Search Strategy engine. Your goal is to show the user how you would break down their query to find information.
    
    User Query: " ++ dquote :: userQuery ++ dquote :: lit "

    Task:
    1. Analyze the query and generate 4-6 precise, distinct search keywords or sub-queries to research this topic thoroughly.
    2. Return the data in a strict JSON format.

    Output Format (JSON only, no markdown):
    " ++ quoted "{
      'keywords': ['keyword 1', 'keyword 2', ...],
      'results': [],
      'answer': 'I would research this by looking into [X], [Y], and [Z] to provide a comprehensive answer.'
    }
  ".

Definition full_prompt (userQuery : jsstring) : jsstring :=
  lit "
    You are an AI Search Transparency engine. Your goal is to show the user how you break down their query, find information, and provide a synthesized answer.
    
    User Query: " ++ dquote :: userQuery ++ dquote :: lit "

    Task:
    1. Analyze the query and generate 4-6 precise, distinct search keywords or sub-queries to research this topic thoroughly.
    2. Use the Google Search tool to find actual, relevant information for these keywords.
    3. Based on the search results, provide a concise, factual answer to the user's query.
    4. Return the data in a strict JSON format.

    Output Format (JSON only, no markdown):
    " ++ quoted "{
      'keywords': ['keyword 1', 'keyword 2', ...],
      'results': [
        { 
          'keyword': 'keyword 1', 
          'title': 'Page Title', 
          'url': 'https://...', 
          'snippet': 'Brief relevant excerpt...' 
        },
        ...
      ],
      'answer': 'A synthesized answer based on the results found...'
    }

    Ensure the " ++ quoted "'keyword'" ++ lit " field in the results matches one of the generated keywords.
    Try to find at least 1-2 results per keyword.
  ".

(** *** [performTransparentSearch] *)

Definition no_response : jsstring := lit "No response from AI".
Definition not_valid_json : jsstring := lit "AI response was not valid JSON".

(** [response.candidates?.[0]?.groundingMetadata] *)
Definition first_grounding (response : Response) : option GroundingMetadata :=
  match candidates response with
  | Some (c :: _) => groundingMetadata c
  | Some [] => None
  | None => None
  end.

(** [groundingMetadata?.webSearchQueries || []]: an array, even an
    empty one, is truthy. *)
Definition executed_queries (response : Response) : list jsstring :=
  match first_grounding response with
  | Some g => match webSearchQueries g with Some qs => qs | None => [] end
  | None => []
  end.

Definition JSON_parse (text : jsstring) : M value :=
  emit (ParseAttempt text) ;;
  match JSON.parse text with
  | Some v => ret v
  | None => throw SyntaxError
  end.

Definition model : jsstring := lit "gemini-3-flash-preview".

Definition prompt (userQuery : jsstring) (isFastMode : bool) : jsstring :=
  if isFastMode then fast_prompt userQuery else full_prompt userQuery.

Definition config (isFastMode : bool) : Config :=
  {| responseMimeType := lit "application/json";
     tools := if negb isFastMode then Some [googleSearch] else None |}.

(** The argument of [ai.models.generateContent]. *)
Definition request (ai : GoogleGenAI) (userQuery : jsstring) (isFastMode : bool) : Request :=
  {| credential := apiKey ai;
     req_model := model;
     contents := prompt userQuery isFastMode;
     req_config := config isFastMode |}.

Definition performTransparentSearch
    (w : World) (userQuery : jsstring) (isFastMode : bool) : M value :=
  ai <- lift (getAIClient (env w)) ;;
  try_catch
    (emit (NetworkRequest (request ai userQuery isFastMode)) ;;
     response <- lift (generateContent w (request ai userQuery isFastMode)) ;;
     match text response with
     | None => throw (Error no_response)
     | Some text =>
         if negb (truthy_string text) then throw (Error no_response)
         else
           let actualQueries := executed_queries response in
           try_catch
             (data <- JSON_parse text ;;
              queries <- (if isFastMode then lift (get data (lit "keywords"))
                          else ret (array_of_strings actualQueries)) ;;
              data <- lift (put data (lit "actualQueries") queries) ;;
              data <- lift (put data (lit "isFastMode") (VBool isFastMode)) ;;
              ret data)
             (fun e =>
                emit (ConsoleError (lit "Failed to parse JSON:") (LogText text)) ;;
                throw (Error not_valid_json))
     end)
    (fun error =>
       emit (ConsoleError (lit "Search error:") (LogExn error)) ;;
       throw error).

(** The body of the inner [try] after the parse, on the parsed value. *)
Definition annotate (isFastMode : bool) (actualQueries : list jsstring) (data : value)
    : completion value :=
  match (if isFastMode then get data (lit "keywords")
         else Normal (array_of_strings actualQueries)) with
  | Normal queries =>
      match put data (lit "actualQueries") queries with
      | Normal data1 => put data1 (lit "isFastMode") (VBool isFastMode)
      | Throw e => Throw e
      end
  | Throw e => Throw e
  end.

(** No key is configured: each variable is unset or empty. *)
Definition unset (o : option jsstring) : Prop := o = None \/ o = Some [].

Definition no_api_key (e : Env) : Prop :=
  unset (VITE_GEMINI_API_KEY e) /\
  match process e with
  | Some p => unset (GEMINI_API_KEY p)
  | None => True
  end.

(** What the trace says about the network. *)
Definition requests (t : list event) : list Request :=
  flat_map (fun ev => match ev with NetworkRequest r => [r] | _ => [] end) t.

Definition parse_attempts (t : list event) : list jsstring :=
  flat_map (fun ev => match ev with ParseAttempt s => [s] | _ => [] end) t.

(** *** The declared interfaces *)

Record SearchResult : Type := {
  keyword : jsstring;
  title : jsstring;
  url : jsstring;
  snippet : jsstring
}.

Record TransparencyResponse : Type := {
  keywords : list jsstring;
  results : list SearchResult;
  actualQueries : option (list jsstring);
  isFastMode : option bool;
  answer : option jsstring
}.

(** The view [as TransparencyResponse] takes of a value that has the
    declared shape; [None] when it does not. *)
Definition as_string (v : value) : option jsstring :=
  match v with VString s => Some s | _ => None end.

Fixpoint all_some {A B} (f : A -> option B) (l : list A) : option (list B) :=
  match l with
  | [] => Some []
  | a :: l' =>
      match f a, all_some f l' with
      | Some b, Some bs => Some (b :: bs)
      | _, _ => None
      end
  end.

Definition as_strings (v : value) : option (list jsstring) :=
  match v with VArray es _ => all_some as_string es | _ => None end.

Definition field (k : string) (ps : props) : value :=
  match lookup (lit k) ps with Some x => x | None => VUndefined end.

Definition as_SearchResult (v : value) : option SearchResult :=
  match v with
  | VObject ps =>
      match as_string (field "keyword" ps), as_string (field "title" ps),
            as_string (field "url" ps), as_string (field "snippet" ps) with
      | Some k, Some t, Some u, Some s =>
          Some {| keyword := k; title := t; url := u; snippet := s |}
      | _, _, _, _ => None
      end
  | _ => None
  end.

Definition optional {A} (f : value -> option A) (v : value) : option (option A) :=
  match v with
  | VUndefined => Some None
  | _ => match f v with Some a => Some (Some a) | None => None end
  end.

Definition as_bool (v : value) : option bool :=
  match v with VBool b => Some b | _ => None end.

Definition as_TransparencyResponse (v : value) : option TransparencyResponse :=
  match v with
  | VObject ps =>
      match as_strings (field "keywords" ps),
            match field "results" ps with
            | VArray es _ => all_some as_SearchResult es
            | _ => None
            end,
            optional as_strings (field "actualQueries" ps),
            optional as_bool (field "isFastMode" ps),
            optional as_string (field "answer" ps) with
      | Some ks, Some rs, Some aq, Some fm, Some an =>
          Some {| keywords := ks; results := rs; actualQueries := aq;
                  isFastMode := fm; answer := an |}
      | _, _, _, _, _ => None
      end
  | _ => None
  end.

(** [performTransparentSearch] as [App] sees it, when what it
    resolves with inhabits the declared type. *)
Definition typed_search (w : World) (userQuery : jsstring) (isFastMode : bool)
    : option (completion TransparencyResponse) :=
  match snd (performTransparentSearch w userQuery isFastMode) with
  | Normal v =>
      match as_TransparencyResponse v with
      | Some r => Some (Normal r)
      | None => None
      end
  | Throw e => Some (Throw e)
  end.

End AiService.

(* ================================================================== *)
(** ** SearchComponents: the submit handler of [SearchInput] *)

Module Components.

(** [handleSubmit]: the query passed to [onSearch], if it is called.
    [query] is the component's own state, [isLoading] its prop. *)
Definition handleSubmit (query : jsstring) (isLoading : bool) : option jsstring :=
  if (truthy_string (trim query) && negb isLoading)%bool
  then Some query
  else None.

(** [disabled] of the submit button. *)
Definition submit_disabled (query : jsstring) (isLoading : bool) : bool :=
  (negb (truthy_string (trim query)) || isLoading)%bool.

End Components.

(* ================================================================== *)
(** ** The [App] component *)

Module App.
Import AiService.

Record State : Type := {
  isLoading : bool;
  isFastMode : bool;
  data : option TransparencyResponse;
  activeKeyword : option jsstring;
  error : option jsstring;
  loadingStep : jsstring
}.

(** [useState] initial values. *)
Definition initial : State :=
  {| isLoading := false; isFastMode := false; data := None;
     activeKeyword := None; error := None; loadingStep := [] |}.

Definition setIsLoading (b : bool) (s : State) : State :=
  {| isLoading := b; isFastMode := isFastMode s; data := data s;
     activeKeyword := activeKeyword s; error := error s; loadingStep := loadingStep s |}.
Definition setIsFastMode (b : bool) (s : State) : State :=
  {| isLoading := isLoading s; isFastMode := b; data := data s;
     activeKeyword := activeKeyword s; error := error s; loadingStep := loadingStep s |}.
Definition setData (d : option TransparencyResponse) (s : State) : State :=
  {| isLoading := isLoading s; isFastMode := isFastMode s; data := d;
     activeKeyword := activeKeyword s; error := error s; loadingStep := loadingStep s |}.
Definition setActiveKeyword (k : option jsstring) (s : State) : State :=
  {| isLoading := isLoading s; isFastMode := isFastMode s; data := data s;
     activeKeyword := k; error := error s; loadingStep := loadingStep s |}.
Definition setError (e : option jsstring) (s : State) : State :=
  {| isLoading := isLoading s; isFastMode := isFastMode s; data := data s;
     activeKeyword := activeKeyword s; error := e; loadingStep := loadingStep s |}.
Definition setLoadingStep (l : jsstring) (s : State) : State :=
  {| isLoading := isLoading s; isFastMode := isFastMode s; data := data s;
     activeKeyword := activeKeyword s; error := error s; loadingStep := l |}.

Definition all : jsstring := lit "all".
Definition failed_to_search : jsstring :=
  lit "Failed to perform search. Please try again.".

(** *** [handleSearch], between its suspension points

    The closure reads [isFastMode] from the render it was created in;
    [fast] below is that captured value. *)

(** From the call to the first [await]. *)
Definition handleSearch_begin (s : State) : State :=
  setLoadingStep (lit "Analyzing query intent...")
    (setActiveKeyword None (setData None (setError None (setIsLoading true s)))).

(** From the first timer to the second [await]. *)
Definition handleSearch_strategies (s : State) : State :=
  setLoadingStep (lit "Generating search strategies...") s.

(** From the second timer to [await performTransparentSearch(query, fast)]. *)
Definition handleSearch_call (fast : bool) (s : State) : State :=
  if negb fast then setLoadingStep (lit "Executing real-time web searches...") s
  else s.

(** From the settled promise to the end: the rest of [try], or
    [catch], then [finally]. *)
Definition handleSearch_settle
    (outcome : completion TransparencyResponse) (s : State) : State :=
  let s' :=
    match outcome with
    | Normal response =>
        let s1 := setData (Some response) s in
        if Nat.ltb 0 (List.length (keywords response))
        then setActiveKeyword (Some all) s1
        else s1
    | Throw _ => setError (Some failed_to_search) s
    end in
  setLoadingStep [] (setIsLoading false s').

(** [handleSearch] run to its end with nothing in between. *)
Definition handleSearch
    (search : jsstring -> bool -> completion TransparencyResponse)
    (query : jsstring) (s : State) : State :=
  let fast := isFastMode s in
  let s1 := handleSearch_begin s in
  let s2 := handleSearch_strategies s1 in
  let s3 := handleSearch_call fast s2 in
  handleSearch_settle (search query fast) s3.

(** *** [filteredResults] *)

Definition filteredResults
    (data : option TransparencyResponse) (activeKeyword : option jsstring)
    : list SearchResult :=
  match data with
  | None => []
  | Some d =>
      if (match activeKeyword with Some k => str_eqb k all | None => false end
          || negb (truthy_opt activeKeyword))%bool
      then results d
      else
        match activeKeyword with
        | Some k => filter (fun r => str_eqb (keyword r) k) (results d)
        | None => results d
        end
  end.

(** *** What [App] returns

    The element tree, reduced to the props and children that depend on
    the state.  Host names are left to the browser: where the source
    applies [new URL(u).hostname], the tree records [u]. *)

Record KeywordChip : Type := {
  chip_keyword : jsstring;
  chip_isActive : bool;
  chip_selects : jsstring;       (* what [onClick] passes to [setActiveKeyword] *)
  chip_resultCount : nat
}.

Record ExecutedQueries : Type := {
  queries_heading : jsstring;
  queries_shown : list jsstring
}.

Record Synthesis : Type := {
  synthesis_answer : jsstring;
  synthesis_source_urls : option (list jsstring)
}.

Inductive ResultsArea : Type :=
| FastModeNotice
| ResultCards (cards : list SearchResult)
| NoResultsForKeyword.

Record ResultsGrid : Type := {
  key_areas : nat;
  all_results_chip : KeywordChip;
  keyword_chips : list KeywordChip;
  executed_queries_panel : option ExecutedQueries;
  synthesis : option Synthesis;
  showing_sources : option nat;
  results_area : ResultsArea
}.

Record View : Type := {
  input_isLoading : bool;
  input_isFastMode : bool;
  clear_results_button : bool;
  loading_indicator : option jsstring;
  error_banner : option jsstring;
  results_grid : option ResultsGrid;
  empty_state : bool
}.

Definition is_active (activeKeyword : option jsstring) (k : jsstring) : bool :=
  match activeKeyword with Some a => str_eqb a k | None => false end.

Definition count_for (d : TransparencyResponse) (k : jsstring) : nat :=
  List.length (filter (fun r => str_eqb (keyword r) k) (results d)).

Definition truthy_flag (o : option bool) : bool :=
  match o with Some b => b | None => false end.

Definition render_grid (s : State) (d : TransparencyResponse) : ResultsGrid :=
  let shown := filteredResults (data s) (activeKeyword s) in
  {| key_areas := List.length (keywords d);
     all_results_chip :=
       {| chip_keyword := lit "All Results";
          chip_isActive := is_active (activeKeyword s) all;
          chip_selects := all;
          chip_resultCount := List.length (results d) |};
     keyword_chips :=
       map (fun keyword =>
              {| chip_keyword := keyword;
                 chip_isActive := is_active (activeKeyword s) keyword;
                 chip_selects := keyword;
                 chip_resultCount := count_for d keyword |})
           (keywords d);
     executed_queries_panel :=
       match actualQueries d with
       | Some qs =>
           if Nat.ltb 0 (List.length qs)
           then Some {| queries_heading :=
                          if truthy_flag (AiService.isFastMode d)
                          then lit "Generated Search Queries"
                          else lit "Executed Search Queries";
                        queries_shown := qs |}
           else None
       | None => None
       end;
     synthesis :=
       if truthy_opt (answer d)
       then match answer d with
            | Some a =>
                Some {| synthesis_answer := a;
                        synthesis_source_urls :=
                          if (Nat.ltb 0 (List.length (results d))
                              && negb (truthy_flag (AiService.isFastMode d)))%bool
                          then Some (map url (results d))
                          else None |}
            | None => None
            end
       else None;
     showing_sources :=
       if negb (truthy_flag (AiService.isFastMode d))
       then Some (List.length shown) else None;
     results_area :=
       if truthy_flag (AiService.isFastMode d) then FastModeNotice
       else if Nat.ltb 0 (List.length shown) then ResultCards shown
       else NoResultsForKeyword |}.

Definition is_some {A} (o : option A) : bool :=
  match o with Some _ => true | None => false end.

Definition render (s : State) : View :=
  {| input_isLoading := isLoading s;
     input_isFastMode := isFastMode s;
     clear_results_button := (is_some (data s) && negb (isLoading s))%bool;
     loading_indicator := if isLoading s then Some (loadingStep s) else None;
     error_banner := if truthy_opt (error s) then error s else None;
     results_grid :=
       if negb (isLoading s)
       then match data s with Some d => Some (render_grid s d) | None => None end
       else None;
     empty_state :=
       (negb (isLoading s) && negb (is_some (data s)) && negb (truthy_opt (error s)))%bool |}.

(** *** The event loop

    The page as a machine: the state of [App], the text in the input
    ([SearchInput]'s own state), the [handleSearch] call that is
    suspended at an [await], if any, and the calls made to
    [performTransparentSearch] so far. *)

Inductive Stage : Type :=
| AwaitIntentDelay
| AwaitStrategyDelay
| AwaitSearch.

Record Task : Type := {
  task_query : jsstring;
  task_fast : bool;
  task_stage : Stage
}.

Record Machine : Type := {
  app : State;
  query : jsstring;
  pending : option Task;
  calls : list (jsstring * bool)
}.

Definition boot : Machine :=
  {| app := initial; query := []; pending := None; calls := [] |}.

Inductive Event : Type :=
| TypeQuery (text : jsstring)
| Submit
| ToggleFastMode
| SelectAllResults
| SelectKeyword (idx : nat)
| ClearResults
| TimerFires
| SearchSettles (outcome : completion TransparencyResponse).

Definition with_app (f : State -> State) (m : Machine) : Machine :=
  {| app := f (app m); query := query m; pending := pending m; calls := calls m |}.

(** A handler runs only if the element carrying it is rendered (and,
    for the input, enabled). *)
Definition step (ev : Event) (m : Machine) : Machine :=
  let s := app m in
  match ev with
  | TypeQuery text =>
      if isLoading s then m
      else {| app := s; query := text; pending := pending m; calls := calls m |}
  | Submit =>
      match Components.handleSubmit (query m) (isLoading s) with
      | Some q =>
          {| app := handleSearch_begin s;
             query := query m;
             pending := Some {| task_query := q; task_fast := isFastMode s;
                                task_stage := AwaitIntentDelay |};
             calls := calls m |}
      | None => m
      end
  | ToggleFastMode => with_app (setIsFastMode (negb (isFastMode s))) m
  | SelectAllResults =>
      match results_grid (render s) with
      | Some g => with_app (setActiveKeyword (Some (chip_selects (all_results_chip g)))) m
      | None => m
      end
  | SelectKeyword idx =>
      match results_grid (render s) with
      | Some g =>
          match nth_error (keyword_chips g) idx with
          | Some chip => with_app (setActiveKeyword (Some (chip_selects chip))) m
          | None => m
          end
      | None => m
      end
  | ClearResults =>
      if clear_results_button (render s)
      then with_app (fun s => setActiveKeyword None (setData None s)) m
      else m
  | TimerFires =>
      match pending m with
      | Some t =>
          match task_stage t with
          | AwaitIntentDelay =>
              {| app := handleSearch_strategies s; query := query m;
                 pending := Some {| task_query := task_query t; task_fast := task_fast t;
                                    task_stage := AwaitStrategyDelay |};
                 calls := calls m |}
          | AwaitStrategyDelay =>
              {| app := handleSearch_call (task_fast t) s; query := query m;
                 pending := Some {| task_query := task_query t; task_fast := task_fast t;
                                    task_stage := AwaitSearch |};
                 calls := calls m ++ [(task_query t, task_fast t)] |}
          | AwaitSearch => m
          end
      | None => m
      end
  | SearchSettles outcome =>
      match pending m with
      | Some t =>
          match task_stage t with
          | AwaitSearch =>
              {| app := handleSearch_settle outcome s; query := query m;
                 pending := None; calls := calls m |}
          | _ => m
          end
      | None => m
      end
  end.

Definition run (evs : list Event) (m : Machine) : Machine :=
  fold_left (fun m ev => step ev m) evs m.

(** While a [handleSearch] call is suspended the page is loading and
    holds neither a response nor an error; otherwise it is not
    loading. *)
Definition consistent (m : Machine) : Prop :=
  match pending m with
  | Some _ =>
      isLoading (app m) = true /\ data (app m) = None /\
      activeKeyword (app m) = None /\ error (app m) = None
  | None => isLoading (app m) = false
  end.

(** What the user can do, as opposed to timers and the backend. *)
Definition user_event (ev : Event) : bool :=
  match ev with
  | TimerFires | SearchSettles _ => false
  | _ => true
  end.

End App.

(* ================================================================== *)
(** ** Test worlds *)

Module Fixture.
Import AiService.

Definition env_with_key : Env :=
  {| VITE_GEMINI_API_KEY := Some (lit "test-key"); process := None |}.

Definition env_without_key : Env :=
  {| VITE_GEMINI_API_KEY := None;
     process := Some {| GEMINI_API_KEY := Some [] |} |}.

(** A backend that answers every request with the same response. *)
Definition answering (e : Env) (r : Response) : World :=
  {| env := e; generateContent := fun _ => Normal r |}.

(** A backend that rejects every request. *)
Definition rejecting (e : Env) : World :=
  {| env := e; generateContent := fun _ => Throw (Rejected (lit "503")) |}.

Definition body_only (body : jsstring) : Response :=
  {| text := Some body; candidates := None |}.

Definition grounded (body : jsstring) (queries : list jsstring) : Response :=
  {| text := Some body;
     candidates := Some [ {| groundingMetadata :=
                               Some {| webSearchQueries := Some queries |} |} ] |}.

(** A fast-mode answer that carries a result all the same. *)
Definition fast_body_with_result : jsstring :=
  quoted "{'keywords':['a'],'results':[{'keyword':'a','title':'t','url':'https://example.com/a','snippet':'s'}],'answer':'x'}".

(** The example of the specification, as the body of the answer. *)
Definition ev_body : jsstring :=
  quoted "{'keywords':['EV range 2025','EV pricing 2025'],'results':[{'keyword':'EV range 2025','title':'...','url':'https://example.com/a','snippet':'...'}],'answer':'...'}".

Definition ev_query : jsstring := lit "best electric cars in 2025".

Definition ev_result : SearchResult :=
  {| keyword := lit "EV range 2025"; title := lit "...";
     url := lit "https://example.com/a"; snippet := lit "..." |}.

Definition ev_response : TransparencyResponse :=
  {| keywords := [lit "EV range 2025"; lit "EV pricing 2025"];
     results := [ev_result];
     actualQueries := Some [];
     isFastMode := Some false;
     answer := Some (lit "...") |}.

(** The example as a session: type, submit, let both timers fire,
    and let the search resolve. *)
Definition session (q : jsstring) (outcome : completion TransparencyResponse)
    : list App.Event :=
  [App.TypeQuery q; App.Submit; App.TimerFires; App.TimerFires;
   App.SearchSettles outcome].

(** An answer one of whose keywords is the empty string. *)
Definition tagged_a : SearchResult :=
  {| keyword := lit "a"; title := lit "t";
     url := lit "https://example.com/a"; snippet := lit "s" |}.

Definition blank_keyword_response : TransparencyResponse :=
  {| keywords := [[]; lit "a"];
     results := [tagged_a];
     actualQueries := Some [];
     isFastMode := Some false;
     answer := None |}.

Definition blank_keyword_body : jsstring :=
  quoted "{'keywords':['','a'],'results':[{'keyword':'a','title':'t','url':'https://example.com/a','snippet':'s'}]}".

End Fixture.

(* ================================================================== *)
(** ** Reading a body as the interface declares it *)

Module Shape.
Import AiService.

(** The fields of a parsed body that the orchestrator leaves alone. *)
Record Core : Type := {
  core_keywords : list jsstring;
  core_results : list SearchResult;
  core_answer : option jsstring
}.

Definition as_results (v : value) : option (list SearchResult) :=
  match v with
  | VArray es _ => all_some as_SearchResult es
  | _ => None
  end.

Definition core_of (ps : props) : option Core :=
  match as_strings (field "keywords" ps),
        as_results (field "results" ps),
        optional as_string (field "answer" ps) with
  | Some ks, Some rs, Some an =>
      Some {| core_keywords := ks; core_results := rs; core_answer := an |}
  | _, _, _ => None
  end.

(** The last event of a trace. *)
Definition last_event (t : list event) : option event :=
  match rev t with
  | ev :: _ => Some ev
  | [] => None
  end.

(** Every way a call can go. *)
Inductive Course (w : World) (q : jsstring) (fast : bool) : Prop :=
| NoClient e :
    getAIClient (env w) = Throw e ->
    performTransparentSearch w q fast = ([], Throw e) ->
    Course w q fast
| BackendRejected ai e :
    getAIClient (env w) = Normal ai ->
    generateContent w (request ai q fast) = Throw e ->
    performTransparentSearch w q fast
      = ([NetworkRequest (request ai q fast);
          ConsoleError (lit "Search error:") (LogExn e)], Throw e) ->
    Course w q fast
| NoBody ai response :
    getAIClient (env w) = Normal ai ->
    generateContent w (request ai q fast) = Normal response ->
    unset (text response) ->
    performTransparentSearch w q fast
      = ([NetworkRequest (request ai q fast);
          ConsoleError (lit "Search error:") (LogExn (Error no_response))],
         Throw (Error no_response)) ->
    Course w q fast
| BadBody ai response body :
    getAIClient (env w) = Normal ai ->
    generateContent w (request ai q fast) = Normal response ->
    text response = Some body ->
    performTransparentSearch w q fast
      = ([NetworkRequest (request ai q fast); ParseAttempt body;
          ConsoleError (lit "Failed to parse JSON:") (LogText body);
          ConsoleError (lit "Search error:") (LogExn (Error not_valid_json))],
         Throw (Error not_valid_json)) ->
    Course w q fast
| Resolved ai response body v :
    getAIClient (env w) = Normal ai ->
    generateContent w (request ai q fast) = Normal response ->
    text response = Some body ->
    performTransparentSearch w q fast
      = ([NetworkRequest (request ai q fast); ParseAttempt body], Normal v) ->
    Course w q fast.

End Shape.

(* ================================================================== *)
(** ** The page, seen from outside *)

Module Page.
Import AiService App.

(** The label [handleSearch] has set by the time it is suspended at a
    stage: in fast mode the third label is skipped and the second one
    stays. *)
Definition stage_label (t : Task) : jsstring :=
  match task_stage t with
  | AwaitIntentDelay => lit "Analyzing query intent..."
  | AwaitStrategyDelay => lit "Generating search strategies..."
  | AwaitSearch =>
      if task_fast t then lit "Generating search strategies..."
      else lit "Executing real-time web searches..."
  end.

(** The four screens of the page, and the view that shows exactly one. *)
Inductive Screen : Type :=
| Idle
| Loading (label : jsstring)
| Ready (grid : ResultsGrid)
| Failed (message : jsstring).

Definition screen_of (v : View) : option Screen :=
  match loading_indicator v, results_grid v, error_banner v, empty_state v with
  | None, None, None, true => Some Idle
  | Some l, None, None, false => Some (Loading l)
  | None, Some g, None, false => Some (Ready g)
  | None, None, Some e, false => Some (Failed e)
  | _, _, _, _ => None
  end.

(** What every state the page can reach satisfies. *)
Record sound (m : Machine) : Prop := {
  sound_consistent : consistent m;
  sound_error :
    error (app m) = None \/
    (error (app m) = Some failed_to_search /\ data (app m) = None);
  sound_no_filter : data (app m) = None -> activeKeyword (app m) = None;
  sound_filter :
    forall d k, data (app m) = Some d -> activeKeyword (app m) = Some k ->
                k = all \/ In k (keywords d);
  sound_unset :
    forall d, data (app m) = Some d -> activeKeyword (app m) = None ->
              keywords d = [];
  sound_label :
    loadingStep (app m)
      = match pending m with Some t => stage_label t | None => [] end;
  sound_task :
    forall t, pending m = Some t -> trim (task_query t) <> [];
  sound_calls : Forall (fun c => trim (fst c) <> []) (calls m)
}.

(** Calls that have not settled yet: one while [handleSearch] awaits
    the search, none otherwise. *)
Definition in_flight (m : Machine) : nat :=
  match pending m with
  | Some t => match task_stage t with AwaitSearch => 1 | _ => 0 end
  | None => 0
  end.

Definition is_settle (ev : Event) : bool :=
  match ev with SearchSettles _ => true | _ => false end.

Definition settles (evs : list Event) : nat :=
  List.length (filter is_settle evs).

(** An accepted submission that runs to its end undisturbed. *)
Definition search_session (outcome : completion TransparencyResponse) : list Event :=
  [Submit; TimerFires; TimerFires; SearchSettles outcome].

End Page.

(* ================================================================== *)
(** ** Host names of the sources *)

Module Sources.
Import AiService App.

(** Not added yet. *)
Definition unseen (seen : list jsstring) (x : jsstring) : bool :=
  negb (existsb (str_eqb x) seen).

Section Hostname.

(** [new URL(u).hostname], left to the browser: the host name of [u],
    or what the constructor throws for an invalid URL. *)
Variable hostname : jsstring -> completion jsstring.

(** [urls.map(u => new URL(u).hostname)] *)
Fixpoint hostnames (urls : list jsstring) : completion (list jsstring) :=
  match urls with
  | [] => Normal []
  | u :: rest =>
      match hostname u with
      | Normal h =>
          match hostnames rest with
          | Normal hs => Normal (h :: hs)
          | Throw e => Throw e
          end
      | Throw e => Throw e
      end
  end.

(** [Array.from(new Set(l))]: a set keeps its values in the order they
    were first added. *)
Fixpoint add_all (seen l : list jsstring) : list jsstring :=
  match l with
  | [] => seen
  | h :: l' =>
      add_all (if existsb (str_eqb h) seen then seen else seen ++ [h]) l'
  end.

Definition distinct (l : list jsstring) : list jsstring := add_all [] l.

(** The host names under the answer, for the URLs the tree records. *)
Definition source_hosts (sy : Synthesis) : completion (option (list jsstring)) :=
  match synthesis_source_urls sy with
  | None => Normal None
  | Some urls =>
      match hostnames urls with
      | Normal hs => Normal (Some (distinct hs))
      | Throw e => Throw e
      end
  end.

(** The host name a [ResultCard] shows. *)
Definition card_host (r : SearchResult) : completion jsstring :=
  hostname (url r).

End Hostname.

(** A stand-in for the URL parser in examples: what follows https://
    up to the next slash, and a TypeError for any other text. *)
Fixpoint up_to_slash (s : jsstring) : jsstring :=
  match s with
  | [] => []
  | c :: s' => if N.eqb c 47 then [] else c :: up_to_slash s'
  end.

Definition https_host (u : jsstring) : completion jsstring :=
  match JSON.expect (lit "https://") u with
  | Some rest => Normal (up_to_slash rest)
  | None => Throw TypeError
  end.

(** An answer whose second result has a URL without a scheme. *)
Definition no_scheme : SearchResult :=
  {| keyword := lit "a"; title := lit "t";
     url := lit "example.com/b"; snippet := lit "s" |}.

Definition with_bad_url : TransparencyResponse :=
  {| keywords := [lit "a"];
     results := [Fixture.tagged_a; no_scheme];
     actualQueries := None;
     AiService.isFastMode := Some false;
     answer := Some (lit "x") |}.

End Sources.

(* ================================================================== *)
(** ** Copying queries *)

Module Copying.
Import AiService.

(** [l.join('\n')] *)
Fixpoint join (l : list jsstring) : jsstring :=
  match l with
  | [] => []
  | [a] => a
  | a :: rest => a ++ 10%N :: join rest
  end.

(** [onClick] of Copy All: the text handed to
    [navigator.clipboard.writeText], if it is called. *)
Definition copyAll (d : TransparencyResponse) : option jsstring :=
  match actualQueries d with
  | None => None
  | Some qs =>
      let allQueries := join qs in
      if truthy_string allQueries then Some allQueries else None
  end.

(** The lines of a text, as [text.split('\n')] gives them. *)
Fixpoint lines_from (current : jsstring) (s : jsstring) : list jsstring :=
  match s with
  | [] => [rev current]
  | c :: s' =>
      if N.eqb c 10 then rev current :: lines_from [] s'
      else lines_from (c :: current) s'
  end.

Definition lines (s : jsstring) : list jsstring := lines_from [] s.

(** [ExecutedQuery]: its [copied] state, the timeouts it has set that
    have not fired yet, and what it has handed to the clipboard. *)
Record Row : Type := {
  copied : bool;
  timeouts : nat;
  written : list jsstring
}.

Definition row_initial : Row :=
  {| copied := false; timeouts := 0; written := [] |}.

Inductive RowEvent : Type :=
| ClickCopy
| TimeoutFires.

(** [handleCopy], and the callback of its timeout. *)
Definition handleCopy (query : jsstring) (r : Row) : Row :=
  {| copied := true; timeouts := S (timeouts r); written := written r ++ [query] |}.

Definition row_step (query : jsstring) (ev : RowEvent) (r : Row) : Row :=
  match ev with
  | ClickCopy => handleCopy query r
  | TimeoutFires =>
      match timeouts r with
      | O => r
      | S n => {| copied := false; timeouts := n; written := written r |}
      end
  end.

Definition row_run (query : jsstring) (evs : list RowEvent) (r : Row) : Row :=
  fold_left (fun r ev => row_step query ev r) evs r.

Definition clicks (evs : list RowEvent) : nat :=
  List.length (filter (fun ev => match ev with ClickCopy => true | _ => false end) evs).

End Copying.

(* ================================================================== *)
(** ** The parser always answers *)

Module JSONFacts.
Import JSON.

Lemma skip_ws_le (s : jsstring) : List.length (skip_ws s) <= List.length s.
Proof.
  induction s as [|c s IH]; simpl; [lia|].
  destruct (is_json_ws c); simpl; lia.
Qed.

Lemma skip_ws_cons (s : jsstring) c r :
  skip_ws s = c :: r -> List.length r < List.length s.
Proof.
  intros H. pose proof (skip_ws_le s) as L. rewrite H in L. simpl in L. lia.
Qed.

Lemma digits_le (s acc : jsstring) :
  List.length (snd (digits acc s)) <= List.length s.
Proof.
  revert acc. induction s as [|c s IH]; intros acc; simpl; [lia|].
  destruct (is_digit c); simpl; [specialize (IH (c :: acc)); lia | lia].
Qed.

Lemma digits_le' (s acc ds r : jsstring) :
  digits acc s = (ds, r) -> List.length r <= List.length s.
Proof.
  intros H. pose proof (digits_le s acc) as L. rewrite H in L. exact L.
Qed.

Lemma string_chars_bounded (n : nat) :
  forall s acc, List.length s <= n ->
    string_chars acc s <> PFuel /\
    forall k r, string_chars acc s = POk k r -> List.length r < List.length s.
Proof.
  induction n as [|n IH]; intros s acc Hn.
  - destruct s; [|simpl in Hn; lia]. simpl. split; [discriminate|intros; discriminate].
  - destruct s as [|c s]; [simpl; split; [discriminate|intros; discriminate]|].
    simpl in Hn. simpl.
    destruct (N.eqb c 34).
    { split; [discriminate|]. intros k r E. inversion E; subst. simpl. lia. }
    destruct (N.eqb c 92).
    + destruct s as [|e s]; [split; [discriminate|intros; discriminate]|].
      simpl in Hn.
      destruct (N.eqb e 117).
      * destruct s as [|h1 [|h2 [|h3 [|h4 s]]]];
          try (split; [discriminate|intros; discriminate]).
        destruct (hex4 h1 h2 h3 h4); [|split; [discriminate|intros; discriminate]].
        simpl in Hn.
        destruct (IH s (c0 :: acc) ltac:(lia)) as [A B].
        split; [exact A|]. intros k r E. apply B in E. simpl. lia.
      * destruct (escape e); [|split; [discriminate|intros; discriminate]].
        destruct (IH s (c0 :: acc) ltac:(lia)) as [A B].
        split; [exact A|]. intros k r E. apply B in E. simpl. lia.
    + destruct (N.ltb c 32); [split; [discriminate|intros; discriminate]|].
      destruct (IH s (c :: acc) ltac:(lia)) as [A B].
      split; [exact A|]. intros k r E. apply B in E. simpl. lia.
Qed.

Lemma string_chars_lt acc s k r :
  string_chars acc s = POk k r -> List.length r < List.length s.
Proof. apply (string_chars_bounded (List.length s)); lia. Qed.

Lemma string_chars_fuel acc s : string_chars acc s <> PFuel.
Proof. apply (string_chars_bounded (List.length s)); lia. Qed.

Lemma opt_sign_le allowed s sg r :
  opt_sign allowed s = (sg, r) -> List.length r <= List.length s.
Proof.
  destruct s as [|c s]; simpl.
  - intros E; inversion E; subst; simpl; lia.
  - destruct (allowed c); intros E; inversion E; subst; simpl; lia.
Qed.

Lemma int_part_lt s i r :
  int_part s = Some (i, r) -> List.length r < List.length s.
Proof.
  destruct s as [|d s]; simpl; [discriminate|].
  destruct (is_digit d); simpl; [|discriminate].
  destruct (N.eqb d 48).
  - intros E; inversion E; subst; lia.
  - destruct (digits [] s) as [ds r'] eqn:D. intros E; inversion E; subst.
    apply digits_le' in D. lia.
Qed.

Lemma frac_part_le s f r :
  frac_part s = Some (f, r) -> List.length r <= List.length s.
Proof.
  destruct s as [|p s]; simpl.
  - intros E; inversion E; subst; simpl; lia.
  - destruct (N.eqb p 46).
    + destruct (digits [] s) as [ds r'] eqn:D. apply digits_le' in D.
      destruct ds; [discriminate|]. intros E; inversion E; subst. lia.
    + intros E; inversion E; subst; simpl; lia.
Qed.

Lemma exp_part_le s x r :
  exp_part s = Some (x, r) -> List.length r <= List.length s.
Proof.
  destruct s as [|e s]; simpl.
  - intros E; inversion E; subst; simpl; lia.
  - destruct (N.eqb e 101 || N.eqb e 69)%bool.
    + destruct (opt_sign _ s) as [sg s''] eqn:S. apply opt_sign_le in S.
      destruct (digits [] s'') as [ds r'] eqn:D. apply digits_le' in D.
      destruct ds; [discriminate|]. intros E; inversion E; subst. lia.
    + intros E; inversion E; subst; simpl; lia.
Qed.

Lemma number_lt s n r :
  number s = POk n r -> List.length r < List.length s.
Proof.
  unfold number.
  destruct (opt_sign _ s) as [sg s1] eqn:S. apply opt_sign_le in S.
  destruct (int_part s1) as [[i s2]|] eqn:I; [|discriminate]. apply int_part_lt in I.
  destruct (frac_part s2) as [[f s3]|] eqn:F; [|discriminate]. apply frac_part_le in F.
  destruct (exp_part s3) as [[x s4]|] eqn:X; [|discriminate]. apply exp_part_le in X.
  intros E; inversion E; subst. lia.
Qed.

Lemma number_fuel s : number s <> PFuel.
Proof.
  unfold number.
  destruct (opt_sign _ s) as [sg s1].
  destruct (int_part s1) as [[i s2]|]; [|discriminate].
  destruct (frac_part s2) as [[f s3]|]; [|discriminate].
  destruct (exp_part s3) as [[x s4]|]; discriminate.
Qed.

Lemma expect_le w s r : expect w s = Some r -> List.length r <= List.length s.
Proof.
  revert s. induction w as [|a w IH]; intros s; simpl.
  - intros E; inversion E; subst; lia.
  - destruct s as [|c s]; [discriminate|].
    destruct (N.eqb a c); [|discriminate]. intros E. apply IH in E. simpl. lia.
Qed.

Ltac break_parse :=
  repeat match goal with
    | H : POk _ _ = POk _ _ |- _ => inversion H; subst; clear H
    | H : PSyntax = POk _ _ |- _ => discriminate H
    | H : PFuel = POk _ _ |- _ => discriminate H
    | H : context [match skip_ws ?s with _ => _ end] |- _ => destruct (skip_ws s) eqn:?
    | H : (if ?b then _ else _) = POk _ _ |- _ => destruct b eqn:?
    | H : (match ?x with _ => _ end) = POk _ _ |- _ => destruct x eqn:?
    end.

Ltac measure_parse :=
  repeat match goal with
    | H : skip_ws _ = _ :: _ |- _ => apply skip_ws_cons in H
    | H : string_chars _ _ = POk _ _ |- _ => apply string_chars_lt in H
    | H : number _ = POk _ _ |- _ => apply number_lt in H
    | H : expect _ _ = Some _ |- _ => apply expect_le in H
    end.

Lemma parser_consumes (fuel : nat) : consumes fuel.
Proof.
  induction fuel as [|f (IHv & IHe & IHm)]; [repeat split; intros; discriminate|].
  repeat split.
  - intros s v r H. cbn [value_ elements members] in H. break_parse; measure_parse;
      repeat match goal with
        | E : elements f _ _ = POk _ _ |- _ => apply IHe in E
        | E : members f _ _ = POk _ _ |- _ => apply IHm in E
        end; simpl in *; lia.
  - intros acc s es r H. simpl in H.
    destruct (value_ f s) as [v r0| |] eqn:V; try discriminate.
    apply IHv in V.
    destruct (skip_ws r0) as [|c r1] eqn:W; [discriminate|]. apply skip_ws_cons in W.
    destruct (N.eqb c 44).
    + apply IHe in H. lia.
    + destruct (N.eqb c 93); [|discriminate]. inversion H; subst. lia.
  - intros acc s ps r H. simpl in H.
    destruct (skip_ws s) as [|q s1] eqn:W1; [discriminate|]. apply skip_ws_cons in W1.
    destruct (N.eqb q 34); [|discriminate].
    destruct (string_chars [] s1) as [k s2| |] eqn:K; try discriminate.
    apply string_chars_lt in K.
    destruct (skip_ws s2) as [|colon s3] eqn:W2; [discriminate|]. apply skip_ws_cons in W2.
    destruct (N.eqb colon 58); [|discriminate].
    destruct (value_ f s3) as [v r0| |] eqn:V; try discriminate.
    apply IHv in V.
    destruct (skip_ws r0) as [|c r1] eqn:W3; [discriminate|]. apply skip_ws_cons in W3.
    destruct (N.eqb c 44).
    + apply IHm in H. lia.
    + destruct (N.eqb c 125); [|discriminate]. inversion H; subst. lia.
Qed.

Lemma parser_answers (fuel : nat) : answers fuel.
Proof.
  induction fuel as [|f (IHv & IHe & IHm)]; [repeat split; intros; simpl in *; lia|].
  destruct (parser_consumes f) as (Cv & Ce & Cm).
  repeat split.
  - intros s Hf. cbn [value_ elements members].
    destruct (skip_ws s) as [|c s'] eqn:W; [discriminate|]. apply skip_ws_cons in W.
    destruct (N.eqb c 123).
    { destruct (skip_ws s') as [|c' s''] eqn:W'; [discriminate|].
      destruct (N.eqb c' 125); [discriminate|].
      destruct (members f [] s') eqn:E; try discriminate.
      exfalso. apply (IHm [] s'); [lia|exact E]. }
    destruct (N.eqb c 91).
    { destruct (skip_ws s') as [|c' s''] eqn:W'; [discriminate|].
      destruct (N.eqb c' 93); [discriminate|].
      destruct (elements f [] s') eqn:E; try discriminate.
      exfalso. apply (IHe [] s'); [lia|exact E]. }
    destruct (N.eqb c 34).
    { destruct (string_chars [] s') eqn:E; try discriminate.
      exfalso. exact (string_chars_fuel _ _ E). }
    destruct (N.eqb c 116); [destruct (expect _ s'); discriminate|].
    destruct (N.eqb c 102); [destruct (expect _ s'); discriminate|].
    destruct (N.eqb c 110); [destruct (expect _ s'); discriminate|].
    destruct (number (c :: s')) eqn:E; try discriminate.
    exfalso. exact (number_fuel _ E).
  - intros acc s Hf. simpl.
    destruct (value_ f s) as [v r0| |] eqn:V; try discriminate.
    + apply Cv in V.
      destruct (skip_ws r0) as [|c r1] eqn:W; [discriminate|]. apply skip_ws_cons in W.
      destruct (N.eqb c 44); [apply IHe; lia|].
      destruct (N.eqb c 93); discriminate.
    + exfalso. apply (IHv s); [lia|exact V].
  - intros acc s Hf. simpl.
    destruct (skip_ws s) as [|q s1] eqn:W1; [discriminate|]. apply skip_ws_cons in W1.
    destruct (N.eqb q 34); [|discriminate].
    destruct (string_chars [] s1) as [k s2| |] eqn:K; try discriminate.
    2:{ exfalso. exact (string_chars_fuel _ _ K). }
    apply string_chars_lt in K.
    destruct (skip_ws s2) as [|colon s3] eqn:W2; [discriminate|]. apply skip_ws_cons in W2.
    destruct (N.eqb colon 58); [|discriminate].
    destruct (value_ f s3) as [v r0| |] eqn:V; try discriminate.
    + apply Cv in V.
      destruct (skip_ws r0) as [|c r1] eqn:W3; [discriminate|]. apply skip_ws_cons in W3.
      destruct (N.eqb c 44); [apply IHm; lia|].
      destruct (N.eqb c 125); discriminate.
    + exfalso. apply (IHv s3); [lia|exact V].
Qed.

(** [JSON.parse] never gives up for lack of fuel: its [None] is a
    syntax error or text after the value. *)
Lemma parse_fuel_suffices (text : jsstring) :
  value_ (2 * List.length text + 2) text <> PFuel.
Proof. apply parser_answers. lia. Qed.

End JSONFacts.

(* ================================================================== *)
(** ** Strings and properties *)

Module JSFacts.

Lemma str_eqb_refl (a : jsstring) : str_eqb a a = true.
Proof. induction a as [|x a IH]; simpl; [reflexivity|]. now rewrite N.eqb_refl, IH. Qed.

Lemma str_eqb_eq (a b : jsstring) : str_eqb a b = true <-> a = b.
Proof.
  split; [|intros ->; apply str_eqb_refl].
  revert b. induction a as [|x a IH]; intros [|y b]; simpl; try discriminate; auto.
  intros H. apply andb_true_iff in H as [H1 H2].
  apply N.eqb_eq in H1. apply IH in H2. now subst.
Qed.

Lemma str_eqb_neq (a b : jsstring) : str_eqb a b = false <-> a <> b.
Proof.
  split.
  - intros H E. apply str_eqb_eq in E. congruence.
  - intros H. destruct (str_eqb a b) eqn:E; [|reflexivity].
    apply str_eqb_eq in E. contradiction.
Qed.

Lemma lookup_define_same k v ps : lookup k (define k v ps) = Some v.
Proof.
  induction ps as [|[k' v'] ps IH]; simpl.
  - now rewrite str_eqb_refl.
  - destruct (str_eqb k k') eqn:E; simpl; [now rewrite str_eqb_refl|].
    now rewrite E.
Qed.

Lemma lookup_define_other k k' v ps :
  k' <> k -> lookup k' (define k v ps) = lookup k' ps.
Proof.
  intros N. induction ps as [|[k0 v0] ps IH]; simpl.
  - apply str_eqb_neq in N. now rewrite N.
  - destruct (str_eqb k k0) eqn:E; simpl.
    + apply str_eqb_eq in E. subst k0.
      apply str_eqb_neq in N. now rewrite N.
    + destruct (str_eqb k' k0); [reflexivity|exact IH].
Qed.

(** Reading back what was just assigned. *)
Lemma get_put_same v k x v' : put v k x = Normal v' -> get v' k = Normal x.
Proof.
  destruct v; simpl; try discriminate; intros E; inversion E; subst; simpl;
    now rewrite lookup_define_same.
Qed.

(** An assignment leaves every other property as it was. *)
Lemma get_put_other v k x v' k' :
  put v k x = Normal v' -> k' <> k -> get v' k' = get v k'.
Proof.
  destruct v; simpl; try discriminate; intros E N; inversion E; subst; simpl;
    now rewrite lookup_define_other.
Qed.

Lemma put_object v k x : is_object v = true -> exists v', put v k x = Normal v' /\ is_object v' = true.
Proof. destruct v; simpl; try discriminate; eauto. Qed.

Lemma put_needs_object v k x v' : put v k x = Normal v' -> is_object v = true.
Proof. destruct v; simpl; try discriminate; auto. Qed.

Lemma get_object v k : is_object v = true -> exists x, get v k = Normal x.
Proof. destruct v; simpl; try discriminate; eauto. Qed.

Lemma put_elements v k x v' : put v k x = Normal v' -> elements_of v' = elements_of v.
Proof. destruct v; simpl; try discriminate; intros E; inversion E; reflexivity. Qed.

Lemma trim_start_white (s : jsstring) :
  Forall (fun c => is_white_space c = true) s -> trim_start s = [].
Proof. induction 1 as [|c s Hc _ IH]; simpl; [reflexivity|]. now rewrite Hc. Qed.

(** A string of white space trims to the empty string. *)
Lemma trim_white (s : jsstring) :
  Forall (fun c => is_white_space c = true) s -> trim s = [].
Proof. intros H. unfold trim, trim_end. now rewrite (trim_start_white s H). Qed.

Lemma trim_start_nil_white (s : jsstring) :
  trim_start s = [] -> Forall (fun c => is_white_space c = true) s.
Proof.
  induction s as [|c s IH]; simpl; [constructor|].
  destruct (is_white_space c) eqn:E; [|discriminate].
  intros H. constructor; auto.
Qed.

(** And only such a string does. *)
Lemma trim_nil_white (s : jsstring) :
  trim s = [] -> Forall (fun c => is_white_space c = true) s.
Proof.
  unfold trim, trim_end. intros H.
  assert (E : trim_start (rev (trim_start s)) = []).
  { rewrite <- (rev_involutive (trim_start (rev (trim_start s)))), H. reflexivity. }
  destruct (trim_start s) as [|c r] eqn:T; [now apply trim_start_nil_white|].
  exfalso.
  assert (W : forall t, trim_start t = c :: r -> is_white_space c = false).
  { clear. induction t as [|x t IH]; simpl; [discriminate|].
    destruct (is_white_space x) eqn:X; [exact IH|].
    intros E; inversion E; subst; exact X. }
  specialize (W _ T).
  apply trim_start_nil_white in E. rewrite Forall_forall in E.
  specialize (E c). rewrite W in E. 
  assert (In c (rev (c :: r))) by (apply in_rev; rewrite rev_involutive; left; reflexivity).
  specialize (E H0). discriminate.
Qed.

End JSFacts.

(* ================================================================== *)
(** ** The query orchestrator *)

Module AiServiceFacts.
Import AiService JSFacts.

Lemma getAIClient_key env ai :
  getAIClient env = Normal ai ->
  configured_key env = Some (apiKey ai) /\ truthy_string (apiKey ai) = true.
Proof.
  unfold getAIClient. destruct (configured_key env) as [k|]; [|discriminate].
  destruct (truthy_string k) eqn:T; [|discriminate].
  intros E; inversion E; subst; simpl. auto.
Qed.

Lemma no_api_key_falsy env : no_api_key env -> truthy_opt (configured_key env) = false.
Proof.
  unfold no_api_key, configured_key, or_else, unset. intros [[V|V] P]; rewrite V; simpl.
  - destruct (process env) as [p|]; [|reflexivity].
    destruct P as [P|P]; rewrite P; reflexivity.
  - destruct (process env) as [p|]; [|reflexivity].
    destruct P as [P|P]; rewrite P; reflexivity.
Qed.

Lemma no_api_key_throws env :
  no_api_key env -> getAIClient env = Throw (Error api_key_missing).
Proof.
  intros H. apply no_api_key_falsy in H. unfold getAIClient.
  destruct (configured_key env) as [k|]; [|reflexivity].
  simpl in H. now rewrite H.
Qed.

(** The call, once a client exists and the backend has answered with
    a non-empty body. *)
Lemma perform_with_body w q fast ai response body :
  getAIClient (env w) = Normal ai ->
  generateContent w (request ai q fast) = Normal response ->
  text response = Some body -> body <> [] ->
  performTransparentSearch w q fast =
    match JSON.parse body with
    | Some data =>
        match annotate fast (executed_queries response) data with
        | Normal v =>
            ([NetworkRequest (request ai q fast); ParseAttempt body], Normal v)
        | Throw _ =>
            ([NetworkRequest (request ai q fast); ParseAttempt body;
              ConsoleError (lit "Failed to parse JSON:") (LogText body);
              ConsoleError (lit "Search error:") (LogExn (Error not_valid_json))],
             Throw (Error not_valid_json))
        end
    | None =>
        ([NetworkRequest (request ai q fast); ParseAttempt body;
          ConsoleError (lit "Failed to parse JSON:") (LogText body);
          ConsoleError (lit "Search error:") (LogExn (Error not_valid_json))],
         Throw (Error not_valid_json))
    end.
Proof.
  intros A G T B.
  unfold performTransparentSearch. rewrite A. cbn [lift bind].
  cbn [emit bind]. rewrite G. cbn [lift bind]. rewrite T.
  destruct body as [|c body]; [contradiction|]. cbn [truthy_string negb].
  unfold JSON_parse, annotate. cbn [emit bind].
  destruct (JSON.parse (c :: body)) as [data|]; [|reflexivity].
  destruct fast.
  - cbn [ret lift bind try_catch app].
    destruct (get data (lit "keywords")) as [ks|e]; [|reflexivity].
    destruct (put data (lit "actualQueries") ks) as [d1|e]; [|reflexivity].
    destruct (put d1 (lit "isFastMode") (VBool true)) as [d2|e]; reflexivity.
  - cbn [ret lift bind try_catch app].
    destruct (put data (lit "actualQueries") _) as [d1|e]; [|reflexivity].
    destruct (put d1 (lit "isFastMode") (VBool false)) as [d2|e]; reflexivity.
Qed.

(** A call that resolves went through every step. *)
Lemma perform_success w q fast v :
  snd (performTransparentSearch w q fast) = Normal v ->
  exists ai response body data,
    getAIClient (env w) = Normal ai /\
    generateContent w (request ai q fast) = Normal response /\
    text response = Some body /\ body <> [] /\
    JSON.parse body = Some data /\
    annotate fast (executed_queries response) data = Normal v.
Proof.
  intros H.
  destruct (getAIClient (env w)) as [ai|e] eqn:A.
  2:{ unfold performTransparentSearch in H. rewrite A in H. discriminate H. }
  destruct (generateContent w (request ai q fast)) as [response|e] eqn:G.
  2:{ unfold performTransparentSearch in H. rewrite A in H. cbn [lift bind emit] in H.
      rewrite G in H. discriminate H. }
  destruct (text response) as [body|] eqn:T.
  2:{ unfold performTransparentSearch in H. rewrite A in H. cbn [lift bind emit] in H.
      rewrite G in H. cbn [lift bind] in H. rewrite T in H. discriminate H. }
  destruct body as [|c body].
  { unfold performTransparentSearch in H. rewrite A in H. cbn [lift bind emit] in H.
    rewrite G in H. cbn [lift bind] in H. rewrite T in H. discriminate H. }
  rewrite (perform_with_body w q fast ai response (c :: body) A G T) in H by discriminate.
  exists ai, response, (c :: body).
  destruct (JSON.parse (c :: body)) as [data|]; [|discriminate H].
  exists data.
  destruct (annotate fast (executed_queries response) data) as [v'|e] eqn:N;
    [|discriminate H].
  simpl in H. inversion H; subst. repeat split; auto. discriminate.
Qed.

End AiServiceFacts.

Module OrchestratorClaims.
Import AiService JSFacts AiServiceFacts.

Ltac distinct_names := let E := fresh in intro E; vm_compute in E; discriminate E.

Lemma annotate_shape fast aq data v :
  annotate fast aq data = Normal v ->
  is_object data = true /\
  get v (lit "isFastMode") = Normal (VBool fast) /\
  get v (lit "actualQueries") =
    (if fast then get data (lit "keywords") else Normal (array_of_strings aq)) /\
  elements_of v = elements_of data /\
  forall k, k <> lit "actualQueries" -> k <> lit "isFastMode" -> get v k = get data k.
Proof.
  unfold annotate. intros H.
  destruct (if fast then get data (lit "keywords") else Normal (array_of_strings aq))
    as [queries|e] eqn:Q; [|discriminate H].
  destruct (put data (lit "actualQueries") queries) as [d1|e] eqn:P1; [|discriminate H].
  repeat split.
  - exact (put_needs_object _ _ _ _ P1).
  - exact (get_put_same _ _ _ _ H).
  - rewrite (get_put_other _ _ _ _ (lit "actualQueries") H) by distinct_names.
    exact (get_put_same _ _ _ _ P1).
  - rewrite (put_elements _ _ _ _ H). exact (put_elements _ _ _ _ P1).
  - intros k K1 K2.
    rewrite (get_put_other _ _ _ _ k H) by exact K2.
    exact (get_put_other _ _ _ _ k P1 K1).
Qed.

Lemma annotate_object fast aq data :
  is_object data = true -> exists v, annotate fast aq data = Normal v.
Proof.
  intros O. unfold annotate.
  destruct (get_object data (lit "keywords") O) as [ks K].
  assert (exists queries,
    (if fast then get data (lit "keywords") else Normal (array_of_strings aq))
      = Normal queries) as [queries Q].
  { destruct fast; eauto. }
  rewrite Q.
  destruct (put_object data (lit "actualQueries") queries O) as [d1 [P1 O1]].
  rewrite P1.
  destruct (put_object d1 (lit "isFastMode") (VBool fast) O1) as [d2 [P2 _]].
  eauto.
Qed.

Lemma annotate_primitive fast aq data :
  is_object data = false -> exists e, annotate fast aq data = Throw e.
Proof.
  intros O. unfold annotate. destruct data; try discriminate O; destruct fast; simpl; eauto.
Qed.

Lemma as_strings_defined x ks :
  as_strings x = Some ks -> optional as_strings x = Some (Some ks).
Proof. intros E. destruct x; try discriminate E. simpl in *. now rewrite E. Qed.

(** *** Fast mode *)

(** C1, as amended: a fast-mode call that resolves returns a value
    whose [actualQueries] is its [keywords], the same list in the same
    order, and whose [results] is the one of the parsed body, empty or
    not. *)
Theorem fast_mode_queries_are_keywords (w : World) (q : jsstring) (v : value) :
  snd (performTransparentSearch w q true) = Normal v ->
  get v (lit "actualQueries") = get v (lit "keywords") /\
  get v (lit "isFastMode") = Normal (VBool true) /\
  (exists ai response body data,
      generateContent w (request ai q true) = Normal response /\
      text response = Some body /\
      JSON.parse body = Some data /\
      get v (lit "keywords") = get data (lit "keywords") /\
      get v (lit "results") = get data (lit "results")) /\
  (forall r, as_TransparencyResponse v = Some r ->
             actualQueries r = Some (keywords r)).
Proof.
  intros H.
  destruct (perform_success w q true v H)
    as (ai & response & body & data & A & G & T & B & P & N).
  destruct (annotate_shape _ _ _ _ N) as (O & F & Q & _ & K).
  assert (KW : get v (lit "keywords") = get data (lit "keywords"))
    by (apply K; distinct_names).
  assert (AQ : get v (lit "actualQueries") = get v (lit "keywords"))
    by (rewrite KW; exact Q).
  repeat split; auto.
  - exists ai, response, body, data. repeat split; auto. apply K; distinct_names.
  - intros r R. destruct v as [| | | | | |ps]; try discriminate R.
    simpl in AQ. inversion AQ as [AQ']. clear AQ.
    unfold as_TransparencyResponse in R. unfold field in R.
    rewrite AQ' in R.
    set (x := match lookup (lit "keywords") ps with Some x => x | None => VUndefined end) in *.
    destruct (as_strings x) as [ks|] eqn:KS; [|discriminate R].
    rewrite (as_strings_defined x ks KS) in R.
    destruct (match match lookup (lit "results") ps with Some x0 => x0 | None => VUndefined end with
              | VArray es _ => all_some as_SearchResult es | _ => None end);
      [|discriminate R].
    destruct (optional as_bool _); [|discriminate R].
    destruct (optional as_string _); [|discriminate R].
    inversion R; subst; reflexivity.
Qed.

Lemma fast_mode_queries_are_keywords_witness :
  exists v,
    snd (performTransparentSearch
           (Fixture.answering Fixture.env_with_key
              (Fixture.body_only Fixture.fast_body_with_result))
           (lit "q") true) = Normal v /\
    get v (lit "actualQueries") = get v (lit "keywords") /\
    get v (lit "actualQueries") = Normal (array_of_strings [lit "a"]).
Proof.
  eexists. split; [vm_compute; reflexivity|]. split.
  - apply (fast_mode_queries_are_keywords
             (Fixture.answering Fixture.env_with_key
                (Fixture.body_only Fixture.fast_body_with_result)) (lit "q")).
    vm_compute. reflexivity.
  - vm_compute. reflexivity.
Defined.

(** C1 as stated fails: the body of a fast-mode answer may carry
    results, and they are returned. *)
Lemma fast_mode_results_need_not_be_empty :
  ~ (forall (w : World) (q : jsstring) (v : value),
       snd (performTransparentSearch w q true) = Normal v ->
       get v (lit "results") = Normal (VArray [] []) /\
       get v (lit "actualQueries") = get v (lit "keywords")).
Proof.
  intros C.
  destruct (C (Fixture.answering Fixture.env_with_key
                 (Fixture.body_only Fixture.fast_body_with_result))
              (lit "q") _ eq_refl) as [R _].
  vm_compute in R. discriminate R.
Qed.

(** *** The credential *)

Lemma requests_app t t' : requests (t ++ t') = requests t ++ requests t'.
Proof. unfold requests. apply flat_map_app. Qed.

(** Every request in the trace of a call carries the configured key. *)
Lemma requests_carry_key w q fast r :
  In r (requests (fst (performTransparentSearch w q fast))) ->
  configured_key (env w) = Some (credential r) /\ truthy_string (credential r) = true.
Proof.
  destruct (getAIClient (env w)) as [ai|e] eqn:A.
  2:{ unfold performTransparentSearch. rewrite A. simpl. tauto. }
  pose proof (getAIClient_key _ _ A) as K.
  destruct (generateContent w (request ai q fast)) as [response|e] eqn:G.
  2:{ unfold performTransparentSearch. rewrite A. cbn [lift bind emit]. rewrite G.
      cbn. intros [<-|[]]. exact K. }
  destruct (text response) as [[|c body]|] eqn:T.
  1,3: unfold performTransparentSearch; rewrite A; cbn [lift bind emit]; rewrite G;
    cbn [lift bind]; rewrite T; cbn; intros [<-|[]]; exact K.
  rewrite (perform_with_body w q fast ai response (c :: body) A G T) by discriminate.
  destruct (JSON.parse (c :: body)) as [data|];
    [destruct (annotate fast (executed_queries response) data)|];
    cbn; intros [<-|[]]; exact K.
Qed.

(** C4: with no key configured the call fails with the configuration
    error and an empty trace, so before any request; and whatever the
    configuration, a request in the trace carries a non-empty
    configured key. *)
Theorem no_key_no_request (w : World) (q : jsstring) (fast : bool) :
  (no_api_key (env w) ->
     performTransparentSearch w q fast = ([], Throw (Error api_key_missing))) /\
  (forall r, In r (requests (fst (performTransparentSearch w q fast))) ->
     configured_key (env w) = Some (credential r) /\
     truthy_string (credential r) = true).
Proof.
  split.
  - intros H. unfold performTransparentSearch.
    rewrite (no_api_key_throws _ H). reflexivity.
  - apply requests_carry_key.
Qed.

Lemma no_key_no_request_witness :
  performTransparentSearch (Fixture.rejecting Fixture.env_without_key) (lit "q") false
    = ([], Throw (Error api_key_missing)) /\
  requests (fst (performTransparentSearch
                   (Fixture.rejecting Fixture.env_without_key) (lit "q") false)) = [].
Proof.
  assert (K : no_api_key (env (Fixture.rejecting Fixture.env_without_key))).
  { split; [left; reflexivity | right; reflexivity]. }
  pose proof (proj1 (no_key_no_request
                       (Fixture.rejecting Fixture.env_without_key) (lit "q") false) K) as E.
  split; [exact E | rewrite E; reflexivity].
Defined.

(** *** The response body *)

(** C5: once the backend has answered, a missing or empty body makes
    the call fail with the no-response error and nothing has been
    parsed; a body that is not JSON makes it fail with the
    malformed-response error after one parse of the text as it
    came. *)
Theorem body_errors (w : World) (q : jsstring) (fast : bool)
    (ai : GoogleGenAI) (response : Response) :
  getAIClient (env w) = Normal ai ->
  generateContent w (request ai q fast) = Normal response ->
  (unset (text response) ->
     snd (performTransparentSearch w q fast) = Throw (Error no_response) /\
     parse_attempts (fst (performTransparentSearch w q fast)) = []) /\
  (forall body,
     text response = Some body -> body <> [] -> JSON.parse body = None ->
     snd (performTransparentSearch w q fast) = Throw (Error not_valid_json) /\
     parse_attempts (fst (performTransparentSearch w q fast)) = [body]).
Proof.
  intros A G. split.
  - intros U. unfold performTransparentSearch. rewrite A. cbn [lift bind emit].
    rewrite G. cbn [lift bind].
    destruct U as [U|U]; rewrite U; split; reflexivity.
  - intros body T B P.
    rewrite (perform_with_body w q fast ai response body A G T B), P.
    split; reflexivity.
Qed.

Lemma body_errors_witness :
  (snd (performTransparentSearch
          (Fixture.answering Fixture.env_with_key
             {| text := None; candidates := None |}) (lit "q") false)
     = Throw (Error no_response)) /\
  (snd (performTransparentSearch
          (Fixture.answering Fixture.env_with_key
             (Fixture.body_only (quoted "{'keywords': ['a'"))) (lit "q") false)
     = Throw (Error not_valid_json)).
Proof.
  split.
  - apply (body_errors (Fixture.answering Fixture.env_with_key
                          {| text := None; candidates := None |}) (lit "q") false
                       {| apiKey := lit "test-key" |}
                       {| text := None; candidates := None |} eq_refl eq_refl).
    left. reflexivity.
  - apply (proj2 (body_errors
                    (Fixture.answering Fixture.env_with_key
                       (Fixture.body_only (quoted "{'keywords': ['a'"))) (lit "q") false
                    {| apiKey := lit "test-key" |}
                    (Fixture.body_only (quoted "{'keywords': ['a'")) eq_refl eq_refl)
                 (quoted "{'keywords': ['a'") eq_refl).
    + discriminate.
    + vm_compute. reflexivity.
Defined.

(** *** Full mode *)

(** C8: a full-mode call that resolves returns a value whose
    [actualQueries] is the list of web-search queries in the grounding
    metadata of the first candidate, whatever the body says, and the
    empty list when there is no such metadata. *)
Theorem full_mode_queries_from_metadata (w : World) (q : jsstring) (v : value) :
  snd (performTransparentSearch w q false) = Normal v ->
  exists ai response,
    getAIClient (env w) = Normal ai /\
    generateContent w (request ai q false) = Normal response /\
    get v (lit "actualQueries") = Normal (array_of_strings (executed_queries response)) /\
    (forall g qs, first_grounding response = Some g -> webSearchQueries g = Some qs ->
                  get v (lit "actualQueries") = Normal (array_of_strings qs)) /\
    (first_grounding response = None \/
     (exists g, first_grounding response = Some g /\ webSearchQueries g = None) ->
     get v (lit "actualQueries") = Normal (VArray [] [])).
Proof.
  intros H.
  destruct (perform_success w q false v H)
    as (ai & response & body & data & A & G & T & B & P & N).
  destruct (annotate_shape _ _ _ _ N) as (_ & _ & Q & _).
  exists ai, response. repeat split; auto.
  - intros g qs F W. rewrite Q. unfold executed_queries. now rewrite F, W.
  - intros [F|[g [F W]]]; rewrite Q; unfold executed_queries; rewrite F;
      [|rewrite W]; reflexivity.
Qed.

Lemma full_mode_queries_from_metadata_witness :
  exists v,
    snd (performTransparentSearch
           (Fixture.answering Fixture.env_with_key
              (Fixture.grounded Fixture.ev_body [lit "ev range miles 2025"]))
           Fixture.ev_query false) = Normal v /\
    get v (lit "actualQueries")
      = Normal (array_of_strings [lit "ev range miles 2025"]).
Proof.
  eexists. split; [vm_compute; reflexivity|].
  destruct (full_mode_queries_from_metadata
              (Fixture.answering Fixture.env_with_key
                 (Fixture.grounded Fixture.ev_body [lit "ev range miles 2025"]))
              Fixture.ev_query _ eq_refl) as (ai & response & _ & G & Q & _).
  vm_compute in G. inversion G; subst response. exact Q.
Defined.

(** *** No validation of the shape *)

(** C10, as amended: a body that parses to an object or an array is
    returned, whatever its fields; of its named properties only
    [actualQueries] and [isFastMode] are set, and the trace holds the
    request and the parse and nothing else.  A body that parses to
    anything else is refused as not valid JSON. *)
Theorem parsed_object_returned_unvalidated (w : World) (q : jsstring) (fast : bool)
    (ai : GoogleGenAI) (response : Response) (body : jsstring) (data : value) :
  getAIClient (env w) = Normal ai ->
  generateContent w (request ai q fast) = Normal response ->
  text response = Some body -> body <> [] ->
  JSON.parse body = Some data ->
  (is_object data = true ->
     exists v,
       performTransparentSearch w q fast
         = ([NetworkRequest (request ai q fast); ParseAttempt body], Normal v) /\
       get v (lit "isFastMode") = Normal (VBool fast) /\
       get v (lit "actualQueries")
         = (if fast then get data (lit "keywords")
            else Normal (array_of_strings (executed_queries response))) /\
       elements_of v = elements_of data /\
       (forall k, k <> lit "actualQueries" -> k <> lit "isFastMode" ->
                  get v k = get data k)) /\
  (is_object data = false ->
     snd (performTransparentSearch w q fast) = Throw (Error not_valid_json)).
Proof.
  intros A G T B P.
  rewrite (perform_with_body w q fast ai response body A G T B), P.
  split; intros O.
  - destruct (annotate_object fast (executed_queries response) data O) as [v N].
    rewrite N. exists v. split; [reflexivity|].
    destruct (annotate_shape _ _ _ _ N) as (_ & F & Q & E & K). auto.
  - destruct (annotate_primitive fast (executed_queries response) data O) as [e N].
    rewrite N. reflexivity.
Qed.

(** An empty object is returned, although it has none of the declared
    fields. *)
Lemma parsed_object_returned_unvalidated_witness :
  exists v,
    snd (performTransparentSearch
           (Fixture.answering Fixture.env_with_key (Fixture.body_only (lit "{}")))
           (lit "q") false) = Normal v /\
    get v (lit "keywords") = Normal VUndefined /\
    as_TransparencyResponse v = None.
Proof.
  destruct (proj1 (parsed_object_returned_unvalidated
              (Fixture.answering Fixture.env_with_key (Fixture.body_only (lit "{}")))
              (lit "q") false {| apiKey := lit "test-key" |}
              (Fixture.body_only (lit "{}")) (lit "{}") (VObject [])
              eq_refl eq_refl eq_refl ltac:(discriminate) eq_refl) eq_refl)
    as (v & E & _).
  exists v. rewrite E. split; [reflexivity|].
  vm_compute in E. inversion E; subst v. split; reflexivity.
Defined.

(** C10 as stated fails: the body [null] parses, and the call fails. *)
Lemma parsed_null_is_refused :
  ~ (forall (w : World) (q : jsstring) (fast : bool) (ai : GoogleGenAI)
            (response : Response) (body : jsstring) (data : value),
       getAIClient (env w) = Normal ai ->
       generateContent w (request ai q fast) = Normal response ->
       text response = Some body -> body <> [] ->
       JSON.parse body = Some data ->
       exists v, snd (performTransparentSearch w q fast) = Normal v).
Proof.
  intros C.
  destruct (C (Fixture.answering Fixture.env_with_key (Fixture.body_only (lit "null")))
              (lit "q") false {| apiKey := lit "test-key" |}
              (Fixture.body_only (lit "null")) (lit "null") VNull
              eq_refl eq_refl eq_refl ltac:(discriminate) eq_refl) as [v E].
  vm_compute in E. discriminate E.
Qed.

End OrchestratorClaims.

(* ================================================================== *)
(** ** The search state machine *)

Module AppFacts.
Import AiService App JSFacts.

Lemma run_app evs evs' m : run (evs ++ evs') m = run evs' (run evs m).
Proof. unfold run. apply fold_left_app. Qed.

Lemma run_cons ev evs m : run (ev :: evs) m = run evs (step ev m).
Proof. reflexivity. Qed.

Lemma handleSubmit_some q l q' :
  Components.handleSubmit q l = Some q' -> q' = q /\ l = false /\ trim q <> [].
Proof.
  unfold Components.handleSubmit.
  destruct (trim q) eqn:T; simpl; [discriminate|].
  destruct l; simpl; [discriminate|].
  intros E; inversion E; subst. repeat split. discriminate.
Qed.

Lemma handleSubmit_loading q : Components.handleSubmit q true = None.
Proof. unfold Components.handleSubmit. now rewrite andb_false_r. Qed.

(** [onSearch] is skipped exactly when the query is white space or the
    page is loading. *)
Lemma handleSubmit_none_iff q l :
  Components.handleSubmit q l = None <->
  Forall (fun c => is_white_space c = true) q \/ l = true.
Proof.
  split.
  - unfold Components.handleSubmit.
    destruct (trim q) eqn:T; simpl.
    + intros _. left. now apply trim_nil_white.
    + destruct l; simpl; [auto|discriminate].
  - intros [W | ->]; [|apply handleSubmit_loading].
    unfold Components.handleSubmit. now rewrite (trim_white _ W).
Qed.

Lemma boot_consistent : consistent boot.
Proof. reflexivity. Qed.

Lemma step_consistent ev m : consistent m -> consistent (step ev m).
Proof.
  unfold consistent. intros C.
  destruct m as [s qy pd cs]; simpl in *.
  destruct ev; simpl.
  - case (isLoading s); simpl; exact C.
  - destruct (Components.handleSubmit qy (isLoading s)) eqn:H; simpl; [|exact C].
    repeat split.
  - destruct pd; simpl; exact C.
  - unfold render; simpl. destruct pd as [t|]; simpl.
    + pose proof C as (L & _). rewrite L. simpl. exact C.
    + rewrite C. simpl. destruct (data s); simpl; exact C.
  - unfold render; simpl. destruct pd as [t|]; simpl.
    + pose proof C as (L & _). rewrite L. simpl. exact C.
    + rewrite C. simpl. destruct (data s); simpl; [|exact C].
      destruct (nth_error _ idx); simpl; exact C.
  - unfold render; simpl. destruct pd as [t|]; simpl.
    + pose proof C as (L & D & _). rewrite L, D. simpl. exact C.
    + rewrite C. destruct (data s); simpl; exact C.
  - destruct pd as [t|]; simpl; [|exact C].
    destruct (task_stage t); simpl; auto.
    destruct C as (L & D & A & E). unfold handleSearch_call.
    destruct (task_fast t); simpl; auto.
  - destruct pd as [t|]; simpl; [|exact C].
    destruct (task_stage t); simpl; auto.
Qed.

Lemma run_consistent evs m : consistent m -> consistent (run evs m).
Proof.
  revert m. induction evs as [|ev evs IH]; intros m C; [exact C|].
  rewrite run_cons. apply IH. now apply step_consistent.
Qed.

(** An accepted submission that nothing interrupts is [handleSearch]
    run to its end. *)
Lemma uninterrupted_submission search m q :
  Components.handleSubmit (query m) (isLoading (app m)) = Some q ->
  app (run [Submit; TimerFires; TimerFires;
            SearchSettles (search q (isFastMode (app m)))] m)
    = handleSearch search q (app m).
Proof.
  intros H. unfold run, fold_left, handleSearch.
  unfold step at 4. rewrite H.
  reflexivity.
Qed.

(** While the page is loading, nothing the user does reaches the
    suspended call or the backend. *)
Lemma user_step_while_loading ev m :
  user_event ev = true -> isLoading (app m) = true ->
  let m' := step ev m in
  isLoading (app m') = true /\ pending m' = pending m /\ calls m' = calls m /\
  query m' = query m /\ data (app m') = data (app m) /\
  activeKeyword (app m') = activeKeyword (app m).
Proof.
  intros U L. destruct m as [s qy pd cs]; simpl in *.
  destruct ev; try discriminate U; simpl.
  - rewrite L. simpl. repeat split; auto.
  - rewrite L, handleSubmit_loading. simpl. repeat split; auto.
  - repeat split; auto.
  - unfold render; simpl. rewrite L. simpl. repeat split; auto.
  - unfold render; simpl. rewrite L. simpl. repeat split; auto.
  - unfold render; simpl. rewrite L, andb_false_r. simpl. repeat split; auto.
Qed.

Lemma user_run_while_loading evs m :
  Forall (fun ev => user_event ev = true) evs -> isLoading (app m) = true ->
  let m' := run evs m in
  isLoading (app m') = true /\ pending m' = pending m /\ calls m' = calls m.
Proof.
  intros U. revert m. induction U as [|ev evs Uev _ IH]; intros m L; [simpl; auto|].
  cbv zeta. rewrite run_cons.
  destruct (user_step_while_loading ev m Uev L) as (L' & P' & C' & _).
  destruct (IH _ L') as (L2 & P2 & C2). rewrite <- P', <- C'. auto.
Qed.

(** A submission that is accepted ends in one call, made with the
    query and the flag as they were when it was submitted, whatever
    the user does while it is on its way. *)
Lemma submission_calls_with_flag_at_submit m q u1 u2 u3 :
  Components.handleSubmit (query m) (isLoading (app m)) = Some q ->
  Forall (fun ev => user_event ev = true) u1 ->
  Forall (fun ev => user_event ev = true) u2 ->
  Forall (fun ev => user_event ev = true) u3 ->
  calls (run (Submit :: u1 ++ TimerFires :: u2 ++ TimerFires :: u3) m)
    = calls m ++ [(q, isFastMode (app m))].
Proof.
  intros H U1 U2 U3.
  rewrite run_cons.
  set (m1 := step Submit m).
  assert (L1 : isLoading (app m1) = true) by (unfold m1; simpl; rewrite H; reflexivity).
  assert (P1 : pending m1 = Some {| task_query := q; task_fast := isFastMode (app m);
                                    task_stage := AwaitIntentDelay |})
    by (unfold m1; simpl; rewrite H; reflexivity).
  assert (C1 : calls m1 = calls m) by (unfold m1; simpl; rewrite H; reflexivity).
  clearbody m1.
  rewrite run_app, run_cons.
  destruct (user_run_while_loading u1 m1 U1 L1) as (L2 & P2 & C2).
  set (m2 := run u1 m1) in *. clearbody m2.
  rewrite P1 in P2.
  set (m3 := step TimerFires m2).
  assert (L3 : isLoading (app m3) = true) by (unfold m3; simpl; rewrite P2; simpl; exact L2).
  assert (P3 : pending m3 = Some {| task_query := q; task_fast := isFastMode (app m);
                                    task_stage := AwaitStrategyDelay |})
    by (unfold m3; simpl; rewrite P2; reflexivity).
  assert (C3 : calls m3 = calls m2) by (unfold m3; simpl; rewrite P2; reflexivity).
  clearbody m3.
  rewrite run_app, run_cons.
  destruct (user_run_while_loading u2 m3 U2 L3) as (L4 & P4 & C4).
  set (m4 := run u2 m3) in *. clearbody m4.
  rewrite P3 in P4.
  set (m5 := step TimerFires m4).
  assert (L5 : isLoading (app m5) = true).
  { unfold m5; simpl; rewrite P4; simpl. unfold handleSearch_call.
    destruct (isFastMode (app m)); simpl; exact L4. }
  assert (C5 : calls m5 = calls m4 ++ [(q, isFastMode (app m))])
    by (unfold m5; simpl; rewrite P4; reflexivity).
  clearbody m5.
  destruct (user_run_while_loading u3 m5 U3 L5) as (_ & _ & C6).
  rewrite C6, C5, C4, C3, C2, C1. reflexivity.
Qed.

End AppFacts.

Module AppClaims.
Import AiService App JSFacts AppFacts.

(** *** Filtering *)

Lemma filteredResults_all d : filteredResults (Some d) (Some all) = results d.
Proof. reflexivity. Qed.

Lemma filteredResults_unset d : filteredResults (Some d) None = results d.
Proof. reflexivity. Qed.

(** For a keyword that is neither empty nor the sentinel, the shown
    results are those tagged with it, in their order. *)
Lemma filteredResults_keyword d k :
  k <> [] -> k <> all ->
  filteredResults (Some d) (Some k)
    = filter (fun r => str_eqb (keyword r) k) (results d).
Proof.
  intros E A. unfold filteredResults.
  apply str_eqb_neq in A. rewrite A.
  destruct k; [contradiction|]. reflexivity.
Qed.

Lemma filter_by_keyword_spec (rs : list SearchResult) k r :
  In r (filter (fun r => str_eqb (keyword r) k) rs) <-> In r rs /\ keyword r = k.
Proof. rewrite filter_In. now rewrite str_eqb_eq. Qed.

(** Choosing a filter changes [activeKeyword] and nothing else: no
    call is made, none is started. *)
Lemma selecting_is_local m idx :
  (calls (step SelectAllResults m) = calls m /\
   pending (step SelectAllResults m) = pending m /\
   data (app (step SelectAllResults m)) = data (app m)) /\
  (calls (step (SelectKeyword idx) m) = calls m /\
   pending (step (SelectKeyword idx) m) = pending m /\
   data (app (step (SelectKeyword idx) m)) = data (app m)).
Proof.
  split; unfold step.
  - destruct (results_grid (render (app m))); simpl; auto.
  - destruct (results_grid (render (app m))) as [g|]; [|auto].
    destruct (nth_error (keyword_chips g) idx); simpl; auto.
Qed.

(** C2 fails on the chip of an empty keyword: after a search whose
    answer lists the empty string among its keywords, selecting that
    chip shows every result, while the chip itself counts the results
    tagged with the empty string, here none. *)
Theorem empty_keyword_chip_shows_all_results :
  let m := run (Fixture.session (lit "q") (Normal Fixture.blank_keyword_response)
                  ++ [SelectKeyword 0]) boot in
  typed_search (Fixture.answering Fixture.env_with_key
                  (Fixture.body_only Fixture.blank_keyword_body)) (lit "q") false
    = Some (Normal Fixture.blank_keyword_response) /\
  activeKeyword (app m) = Some [] /\
  filteredResults (data (app m)) (activeKeyword (app m)) = [Fixture.tagged_a] /\
  filter (fun r => str_eqb (keyword r) []) (results Fixture.blank_keyword_response) = [] /\
  option_map (fun g => map chip_resultCount (keyword_chips g))
             (results_grid (render (app m))) = Some [0; 1] /\
  option_map results_area (results_grid (render (app m)))
    = Some (ResultCards [Fixture.tagged_a]).
Proof. vm_compute. repeat split; reflexivity. Qed.

(** *** Failure *)

Lemma handleSearch_failure search q s e :
  search q (isFastMode s) = Throw e ->
  let s' := handleSearch search q s in
  error s' = Some failed_to_search /\ data s' = None /\
  activeKeyword s' = None /\ isLoading s' = false /\ loadingStep s' = [].
Proof.
  intros F. unfold handleSearch. rewrite F. simpl.
  unfold handleSearch_call. destruct (isFastMode s); simpl; auto.
Qed.

(** C3: as long as a submitted search has not settled the page holds no
    response, the earlier one having been cleared on submission; and if
    the call then fails, for whatever reason, the page ends up not
    loading, with the one generic message and still no response: the
    banner is shown, the grid is not. *)
Theorem failed_search_shows_error_only (evs : list Event) (t : Task) (e : exn) :
  pending (run evs boot) = Some t ->
  data (app (run evs boot)) = None /\
  (task_stage t = AwaitSearch ->
   let m' := step (SearchSettles (Throw e)) (run evs boot) in
   error (app m') = Some failed_to_search /\
   data (app m') = None /\
   isLoading (app m') = false /\
   pending m' = None /\
   error_banner (render (app m')) = Some failed_to_search /\
   results_grid (render (app m')) = None /\
   loading_indicator (render (app m')) = None /\
   empty_state (render (app m')) = false).
Proof.
  intros P.
  pose proof (run_consistent evs boot boot_consistent) as C.
  unfold consistent in C. rewrite P in C. destruct C as (L & D & A & E).
  split; [exact D|]. intros S.
  cbv zeta. unfold step. rewrite P, S.
  destruct (run evs boot) as [s qy pd cs]; simpl in *.
  unfold render; simpl. rewrite D. simpl. repeat split; reflexivity.
Qed.

(** A search that succeeded, then a second one that fails. *)
Lemma failed_search_shows_error_only_witness :
  let before := Fixture.session Fixture.ev_query (Normal Fixture.ev_response) in
  let retry := [Submit; TimerFires; TimerFires] in
  data (app (run before boot)) = Some Fixture.ev_response /\
  data (app (run (before ++ retry) boot)) = None /\
  let m' := step (SearchSettles (Throw (Rejected (lit "503")))) (run (before ++ retry) boot) in
  error (app m') = Some failed_to_search /\ data (app m') = None.
Proof.
  cbv zeta. split; [reflexivity|].
  destruct (failed_search_shows_error_only
              (Fixture.session Fixture.ev_query (Normal Fixture.ev_response)
                 ++ [Submit; TimerFires; TimerFires])
              {| task_query := Fixture.ev_query; task_fast := false;
                 task_stage := AwaitSearch |}
              (Rejected (lit "503")) eq_refl) as (D & F).
  destruct (F eq_refl) as (E & D' & _).
  repeat split; assumption.
Defined.

(** *** Submitting *)

(** C6: with a query of white space only (the empty one included), or
    while loading, [handleSubmit] does not call [onSearch], and the
    submit leaves the page, the suspended call and the list of backend
    calls as they were. *)
Theorem blank_or_busy_submit_is_noop (m : Machine) :
  Forall (fun c => is_white_space c = true) (query m) \/ isLoading (app m) = true ->
  Components.handleSubmit (query m) (isLoading (app m)) = None /\
  step Submit m = m.
Proof.
  intros H.
  assert (N : Components.handleSubmit (query m) (isLoading (app m)) = None).
  { destruct H as [W|L].
    - unfold Components.handleSubmit. now rewrite (trim_white _ W).
    - rewrite L. apply handleSubmit_loading. }
  split; [exact N|]. unfold step. now rewrite N.
Qed.

Lemma blank_or_busy_submit_is_noop_witness :
  let blank := run [TypeQuery [32; 9; 160; 10]%N] boot in
  let busy := run [TypeQuery Fixture.ev_query; Submit; TimerFires; TypeQuery (lit "x")] boot in
  (step Submit blank = blank /\ calls (run [Submit; TimerFires; TimerFires] blank) = []) /\
  (isLoading (app busy) = true /\ step Submit busy = busy).
Proof.
  cbv zeta. split; split.
  - apply (blank_or_busy_submit_is_noop (run [TypeQuery [32; 9; 160; 10]%N] boot)).
    left. repeat constructor.
  - reflexivity.
  - reflexivity.
  - apply (blank_or_busy_submit_is_noop
             (run [TypeQuery Fixture.ev_query; Submit; TimerFires; TypeQuery (lit "x")] boot)).
    right. reflexivity.
Defined.

(** *** The fast-mode toggle *)

(** C7: the toggle flips the flag and leaves the held response, the
    selected filter, what is shown, the suspended call and the calls
    made as they were; a submission accepted after it calls the backend
    once, with the flag as it was when the submission was made, even if
    the toggle is used again before the call goes out. *)
Theorem toggle_affects_next_submission_only (m : Machine) :
  let m' := step ToggleFastMode m in
  (isFastMode (app m') = negb (isFastMode (app m)) /\
   data (app m') = data (app m) /\
   activeKeyword (app m') = activeKeyword (app m) /\
   filteredResults (data (app m')) (activeKeyword (app m'))
     = filteredResults (data (app m)) (activeKeyword (app m)) /\
   results_grid (render (app m')) = results_grid (render (app m)) /\
   pending m' = pending m /\
   calls m' = calls m) /\
  (forall (q : jsstring) (u1 u2 u3 : list Event),
     Components.handleSubmit (query m') (isLoading (app m')) = Some q ->
     Forall (fun ev => user_event ev = true) u1 ->
     Forall (fun ev => user_event ev = true) u2 ->
     Forall (fun ev => user_event ev = true) u3 ->
     calls (run (Submit :: u1 ++ TimerFires :: u2 ++ TimerFires :: u3) m')
       = calls m ++ [(q, negb (isFastMode (app m)))]).
Proof.
  intros m'. split.
  - unfold m'. simpl. repeat split; reflexivity.
  - intros q u1 u2 u3 H U1 U2 U3.
    rewrite (submission_calls_with_flag_at_submit m' q u1 u2 u3 H U1 U2 U3).
    reflexivity.
Qed.

(** After the example search: toggle, submit again, and toggle back
    while the second search is on its way. *)
Lemma toggle_affects_next_submission_only_witness :
  let m := run (Fixture.session Fixture.ev_query (Normal Fixture.ev_response)) boot in
  let m' := step ToggleFastMode m in
  data (app m') = Some Fixture.ev_response /\
  activeKeyword (app m') = Some all /\
  calls (run (Submit :: [ToggleFastMode] ++ TimerFires :: [] ++ TimerFires :: []) m')
    = [(Fixture.ev_query, false); (Fixture.ev_query, true)].
Proof.
  cbv zeta.
  destruct (toggle_affects_next_submission_only
              (run (Fixture.session Fixture.ev_query (Normal Fixture.ev_response)) boot))
    as ((_ & D & A & _) & C).
  rewrite D, A.
  rewrite (C Fixture.ev_query [ToggleFastMode] [] [] eq_refl
             ltac:(repeat constructor) ltac:(constructor) ltac:(constructor)).
  repeat split; reflexivity.
Defined.

(** *** The example of the specification *)

(** C9, as amended: in the example the page shows the two keyword
    chips and an All Results chip whose count is 1, the number of
    results; selecting the first keyword shows one card. *)
Theorem ev_example_view :
  typed_search (Fixture.answering Fixture.env_with_key (Fixture.body_only Fixture.ev_body))
               Fixture.ev_query false
    = Some (Normal Fixture.ev_response) /\
  let m := run (Fixture.session Fixture.ev_query (Normal Fixture.ev_response)) boot in
  calls m = [(Fixture.ev_query, false)] /\
  exists g g',
    results_grid (render (app m)) = Some g /\
    map chip_keyword (keyword_chips g) = [lit "EV range 2025"; lit "EV pricing 2025"] /\
    map chip_resultCount (keyword_chips g) = [1; 0] /\
    chip_keyword (all_results_chip g) = lit "All Results" /\
    chip_isActive (all_results_chip g) = true /\
    chip_resultCount (all_results_chip g) = 1 /\
    results_grid (render (app (step (SelectKeyword 0) m))) = Some g' /\
    results_area g' = ResultCards [Fixture.ev_result] /\
    calls (step (SelectKeyword 0) m) = calls m.
Proof.
  split; [vm_compute; reflexivity|].
  cbv zeta. split; [reflexivity|].
  eexists. eexists. repeat split; vm_compute; reflexivity.
Qed.

(** C9 as stated fails: the All Results chip does not show 2. *)
Lemma ev_example_all_results_count_is_not_two :
  ~ (exists g g',
       let m := run (Fixture.session Fixture.ev_query (Normal Fixture.ev_response)) boot in
       results_grid (render (app m)) = Some g /\
       List.length (keyword_chips g) = 2 /\
       chip_resultCount (all_results_chip g) = 2 /\
       results_grid (render (app (step (SelectKeyword 0) m))) = Some g' /\
       exists card, results_area g' = ResultCards [card]).
Proof.
  intros (g & g' & G & _ & C & _).
  vm_compute in G. inversion G; subst g. vm_compute in C. discriminate C.
Qed.

End AppClaims.

(* ================================================================== *)
(** ** More on the orchestrator *)

Module OrchestratorMore.
Import AiService JSFacts AiServiceFacts Shape.

Ltac distinct_names := let E := fresh in intro E; vm_compute in E; discriminate E.

(** The call before the body is looked at. *)
Lemma perform_rejected w q fast ai e :
  getAIClient (env w) = Normal ai ->
  generateContent w (request ai q fast) = Throw e ->
  performTransparentSearch w q fast
    = ([NetworkRequest (request ai q fast);
        ConsoleError (lit "Search error:") (LogExn e)], Throw e).
Proof.
  intros A G. unfold performTransparentSearch. rewrite A. cbn [lift bind emit].
  rewrite G. reflexivity.
Qed.

Lemma perform_no_body w q fast ai response :
  getAIClient (env w) = Normal ai ->
  generateContent w (request ai q fast) = Normal response ->
  unset (text response) ->
  performTransparentSearch w q fast
    = ([NetworkRequest (request ai q fast);
        ConsoleError (lit "Search error:") (LogExn (Error no_response))],
       Throw (Error no_response)).
Proof.
  intros A G U. unfold performTransparentSearch. rewrite A. cbn [lift bind emit].
  rewrite G. cbn [lift bind]. destruct U as [U|U]; rewrite U; reflexivity.
Qed.

Lemma perform_no_client w q fast e :
  getAIClient (env w) = Throw e ->
  performTransparentSearch w q fast = ([], Throw e).
Proof. intros A. unfold performTransparentSearch. rewrite A. reflexivity. Qed.

Lemma perform_course w q fast : Course w q fast.
Proof.
  destruct (getAIClient (env w)) as [ai|e] eqn:A.
  2:{ eapply NoClient; eauto using perform_no_client. }
  destruct (generateContent w (request ai q fast)) as [response|e] eqn:G.
  2:{ eapply BackendRejected; eauto using perform_rejected. }
  destruct (text response) as [[|c body]|] eqn:T.
  1:{ assert (U : unset (text response)) by (right; exact T).
      exact (NoBody w q fast ai response A G U (perform_no_body w q fast ai response A G U)). }
  2:{ assert (U : unset (text response)) by (left; exact T).
      exact (NoBody w q fast ai response A G U (perform_no_body w q fast ai response A G U)). }
  pose proof (perform_with_body w q fast ai response (c :: body) A G T ltac:(discriminate)) as P.
  destruct (JSON.parse (c :: body)) as [data|].
  - destruct (annotate fast (executed_queries response) data) as [v|e].
    + eapply Resolved; eauto.
    + eapply BadBody; eauto.
  - eapply BadBody; eauto.
Qed.

(** *** One request, no retry *)

(** X1: a call sends exactly one request when a client could be made and
    none otherwise, whatever happens afterwards, and it parses at most
    one text: nothing is retried. *)
Theorem single_request_per_call (w : World) (q : jsstring) (fast : bool) :
  requests (fst (performTransparentSearch w q fast))
    = match getAIClient (env w) with
      | Normal ai => [request ai q fast]
      | Throw _ => []
      end /\
  List.length (parse_attempts (fst (performTransparentSearch w q fast))) <= 1.
Proof.
  destruct (perform_course w q fast)
    as [e A P|ai e A G P|ai r A G U P|ai r b A G T P|ai r b v A G T P];
    rewrite P, A; simpl; split; auto.
Qed.



(** X3: the request of a call names the one model, asks for JSON,
    enables the search tool in full mode and no tool in fast mode, and
    its prompt is a fixed text for the mode with the query put between
    two double quotes as it is. *)
Theorem request_follows_mode (w : World) (q : jsstring) (fast : bool) (r : Request) :
  In r (requests (fst (performTransparentSearch w q fast))) ->
  req_model r = lit "gemini-3-flash-preview" /\
  responseMimeType (req_config r) = lit "application/json" /\
  tools (req_config r) = (if fast then None else Some [googleSearch]) /\
  exists before after,
    contents r = before ++ dquote :: q ++ dquote :: after /\
    forall q', prompt q' fast = before ++ dquote :: q' ++ dquote :: after.
Proof.
  intros H.
  destruct (perform_course w q fast)
    as [e A P|ai e A G P|ai r' A G U P|ai r' b A G T P|ai r' b v A G T P];
    rewrite P in H; simpl in H; try contradiction;
    destruct H as [<-|[]]; simpl; repeat split.
  all: try (destruct fast; reflexivity).
  all: destruct fast; unfold prompt; eexists; eexists; split; intros; reflexivity.
Qed.

Lemma request_follows_mode_witness :
  let w := Fixture.answering Fixture.env_with_key (Fixture.body_only Fixture.ev_body) in
  let r := request {| apiKey := lit "test-key" |} Fixture.ev_query true in
  In r (requests (fst (performTransparentSearch w Fixture.ev_query true))) /\
  tools (req_config r) = None.
Proof.
  cbv zeta.
  assert (H : In (request {| apiKey := lit "test-key" |} Fixture.ev_query true)
                 (requests (fst (performTransparentSearch
                                   (Fixture.answering Fixture.env_with_key
                                      (Fixture.body_only Fixture.ev_body))
                                   Fixture.ev_query true)))).
  { left. reflexivity. }
  split; [exact H|].
  exact (proj1 (proj2 (proj2 (request_follows_mode _ _ true _ H)))).
Defined.

(** *** Which key is sent *)

(** X4: a non-empty VITE_GEMINI_API_KEY is the key of the client, whatever
    [process] holds; when it is unset or empty the client takes a
    non-empty GEMINI_API_KEY of [process]; in every other case
    [getAIClient] throws the missing-key error. *)
Theorem vite_key_takes_precedence (e : Env) :
  getAIClient e =
    match VITE_GEMINI_API_KEY e with
    | Some (c :: k) => Normal {| apiKey := c :: k |}
    | _ =>
        match process e with
        | Some {| GEMINI_API_KEY := Some (c :: k) |} => Normal {| apiKey := c :: k |}
        | _ => Throw (Error api_key_missing)
        end
    end.
Proof.
  unfold getAIClient, configured_key, or_else.
  destruct (VITE_GEMINI_API_KEY e) as [[|c k]|]; simpl; try reflexivity;
    destruct (process e) as [[[[|c' k']|]]|]; reflexivity.
Qed.

(** *** What is logged *)

(** X5: a call that throws either found no key, and then its trace is
    empty, or ends its trace with the thrown value logged under
    Search error. *)
Theorem failures_are_logged (w : World) (q : jsstring) (fast : bool) (e : exn) :
  snd (performTransparentSearch w q fast) = Throw e ->
  (getAIClient (env w) = Throw e /\ fst (performTransparentSearch w q fast) = []) \/
  last_event (fst (performTransparentSearch w q fast))
    = Some (ConsoleError (lit "Search error:") (LogExn e)).
Proof.
  intros H.
  destruct (perform_course w q fast)
    as [e' A P|ai e' A G P|ai r A G U P|ai r b A G T P|ai r b v A G T P];
    rewrite P in H |- *; simpl in H; inversion H; subst; auto.
Qed.

Lemma failures_are_logged_witness :
  last_event (fst (performTransparentSearch
                     (Fixture.answering Fixture.env_with_key
                        (Fixture.body_only (lit "null"))) (lit "q") false))
    = Some (ConsoleError (lit "Search error:") (LogExn (Error not_valid_json))).
Proof.
  destruct (failures_are_logged
              (Fixture.answering Fixture.env_with_key (Fixture.body_only (lit "null")))
              (lit "q") false (Error not_valid_json) eq_refl) as [[A _]|L].
  - discriminate A.
  - exact L.
Defined.

(** *** A well-shaped body *)

Lemma field_define_same k x ps : field k (define (lit k) x ps) = x.
Proof. unfold field. now rewrite lookup_define_same. Qed.

Lemma field_define_other k k' x ps :
  lit k' <> lit k -> field k' (define (lit k) x ps) = field k' ps.
Proof. intros N. unfold field. now rewrite lookup_define_other. Qed.

Lemma all_some_strings l : all_some as_string (map VString l) = Some l.
Proof. induction l as [|a l IH]; simpl; [reflexivity|]. now rewrite IH. Qed.

Lemma strings_are_defined x ks :
  as_strings x = Some ks -> optional as_strings x = Some (Some ks).
Proof. intros E. destruct x; try discriminate E. simpl in *. now rewrite E. Qed.

(** What [as TransparencyResponse] sees of an object after the two
    assignments. *)
Lemma as_response_annotated ps fast queries qs c :
  core_of ps = Some c ->
  as_strings queries = Some qs ->
  as_TransparencyResponse
    (VObject (define (lit "isFastMode") (VBool fast)
                (define (lit "actualQueries") queries ps)))
    = Some {| keywords := core_keywords c; results := core_results c;
              actualQueries := Some qs; isFastMode := Some fast;
              answer := core_answer c |}.
Proof.
  unfold core_of, as_results. intros C Q.
  unfold as_TransparencyResponse.
  rewrite (field_define_other "isFastMode" "keywords") by distinct_names.
  rewrite (field_define_other "actualQueries" "keywords") by distinct_names.
  rewrite (field_define_other "isFastMode" "results") by distinct_names.
  rewrite (field_define_other "actualQueries" "results") by distinct_names.
  rewrite (field_define_other "isFastMode" "answer") by distinct_names.
  rewrite (field_define_other "actualQueries" "answer") by distinct_names.
  rewrite (field_define_other "isFastMode" "actualQueries") by distinct_names.
  rewrite !field_define_same.
  rewrite (strings_are_defined _ _ Q).
  destruct (as_strings (field "keywords" ps)) as [ks|]; [|discriminate C].
  destruct (match field "results" ps with
            | VArray es _ => all_some as_SearchResult es
            | _ => None
            end) as [rs|]; [|discriminate C].
  destruct (optional as_string (field "answer" ps)) as [an|]; [|discriminate C].
  inversion C; subst; reflexivity.
Qed.

(** X6: when the body parses to an object whose [keywords], [results]
    and [answer] have the declared types, the call resolves with a value
    of the declared type: those three fields as in the body, [isFastMode]
    the flag of the call, and [actualQueries] the keywords in fast mode
    and the executed queries of the metadata in full mode, whatever the
    body itself says under [actualQueries] or [isFastMode]. *)
Theorem well_shaped_body_gives_typed_response
    (w : World) (q : jsstring) (fast : bool) (ai : GoogleGenAI)
    (response : Response) (body : jsstring) (ps : props) (c : Core) :
  getAIClient (env w) = Normal ai ->
  generateContent w (request ai q fast) = Normal response ->
  text response = Some body -> body <> [] ->
  JSON.parse body = Some (VObject ps) ->
  core_of ps = Some c ->
  typed_search w q fast
    = Some (Normal {| keywords := core_keywords c;
                      results := core_results c;
                      actualQueries :=
                        Some (if fast then core_keywords c
                              else executed_queries response);
                      isFastMode := Some fast;
                      answer := core_answer c |}).
Proof.
  intros A G T B P C.
  unfold typed_search.
  rewrite (perform_with_body w q fast ai response body A G T B), P.
  unfold annotate.
  destruct fast; unfold get, put; cbv beta iota; cbn [snd].
  - change (match lookup (lit "keywords") ps with Some x => x | None => VUndefined end)
      with (field "keywords" ps).
    rewrite (as_response_annotated ps true (field "keywords" ps) (core_keywords c) c C).
    + reflexivity.
    + unfold core_of in C.
      destruct (as_strings (field "keywords" ps)) as [ks|]; [|discriminate C].
      destruct (as_results _); [|discriminate C].
      destruct (optional _ _); [|discriminate C].
      inversion C; subst; reflexivity.
  - rewrite (as_response_annotated ps false _ (executed_queries response) c C).
    + reflexivity.
    + unfold array_of_strings. simpl. apply all_some_strings.
Qed.

(** A body with its own, ill-typed [actualQueries] and [isFastMode]. *)
Lemma well_shaped_body_gives_typed_response_witness :
  typed_search
    (Fixture.answering Fixture.env_with_key
       (Fixture.grounded
          (quoted "{'keywords':['a'],'results':[],'actualQueries':7,'isFastMode':'no'}")
          [lit "a b"]))
    (lit "q") false
  = Some (Normal {| keywords := [lit "a"]; results := [];
                    actualQueries := Some [lit "a b"];
                    isFastMode := Some false; answer := None |}).
Proof.
  apply (well_shaped_body_gives_typed_response
           (Fixture.answering Fixture.env_with_key
              (Fixture.grounded
                 (quoted "{'keywords':['a'],'results':[],'actualQueries':7,'isFastMode':'no'}")
                 [lit "a b"]))
           (lit "q") false {| apiKey := lit "test-key" |}
           (Fixture.grounded
              (quoted "{'keywords':['a'],'results':[],'actualQueries':7,'isFastMode':'no'}")
              [lit "a b"])
           (quoted "{'keywords':['a'],'results':[],'actualQueries':7,'isFastMode':'no'}")
           [(lit "keywords", VArray [VString (lit "a")] []);
            (lit "results", VArray [] []);
            (lit "actualQueries", VNumber (lit "7"));
            (lit "isFastMode", VString (lit "no"))]
           {| core_keywords := [lit "a"]; core_results := []; core_answer := None |}
           eq_refl eq_refl eq_refl ltac:(discriminate)).
  - vm_compute. reflexivity.
  - vm_compute. reflexivity.
Defined.

Lemma get_field ps k : get (VObject ps) (lit k) = Normal (field k ps).
Proof. reflexivity. Qed.

(** Whenever a call resolves with a value of the declared type, its
    [isFastMode] is the flag the call was made with, and its
    [actualQueries] is its own [keywords] in fast mode and the executed
    queries of the response metadata in full mode. *)
Lemma typed_response_echoes_call
    (w : World) (q : jsstring) (fast : bool) (r : TransparencyResponse) :
  typed_search w q fast = Some (Normal r) ->
  isFastMode r = Some fast /\
  exists ai response,
    getAIClient (env w) = Normal ai /\
    generateContent w (request ai q fast) = Normal response /\
    actualQueries r
      = Some (if fast then keywords r else executed_queries response).
Proof.
  unfold typed_search. intros H.
  destruct (snd (performTransparentSearch w q fast)) as [v|e] eqn:S; [|discriminate H].
  destruct (as_TransparencyResponse v) as [r'|] eqn:R; [|discriminate H].
  inversion H; subst r'. clear H.
  destruct (perform_success w q fast v S)
    as (ai & response & body & data & A & G & T & B & P & N).
  destruct (OrchestratorClaims.annotate_shape _ _ _ _ N) as (_ & F & Q & _ & K).
  destruct v as [| | | | | |ps]; try discriminate R.
  rewrite get_field in F, Q. inversion F as [F']. clear F.
  assert (KW : get data (lit "keywords") = Normal (field "keywords" ps)).
  { rewrite <- (K (lit "keywords")) by distinct_names. apply get_field. }
  rewrite KW in Q.
  assert (Q' : field "actualQueries" ps
               = if fast then field "keywords" ps
                 else array_of_strings (executed_queries response)).
  { destruct fast; inversion Q; reflexivity. }
  clear Q.
  unfold as_TransparencyResponse in R. rewrite F', Q' in R.
  destruct (as_strings (field "keywords" ps)) as [ks|] eqn:KS; [|discriminate R].
  destruct (match field "results" ps with
            | VArray es _ => all_some as_SearchResult es
            | _ => None
            end) as [rs|]; [|discriminate R].
  assert (O : optional as_strings
                (if fast then field "keywords" ps
                 else array_of_strings (executed_queries response))
              = Some (Some (if fast then ks else executed_queries response))).
  { destruct fast; [exact (strings_are_defined _ _ KS)|].
    apply strings_are_defined. unfold array_of_strings. simpl. apply all_some_strings. }
  rewrite O in R. simpl in R.
  destruct (optional as_string (field "answer" ps)) as [an|]; [|discriminate R].
  inversion R; subst; simpl. split; [reflexivity|].
  exists ai, response. auto.
Qed.

End OrchestratorMore.

(* ================================================================== *)
(** ** More on the page *)

Module PageFacts.
Import AiService App JSFacts AppFacts Page.

Lemma boot_sound : sound boot.
Proof.
  constructor; simpl; auto; try discriminate.
  exact boot_consistent.
Qed.

Lemma nth_error_chip (s : State) (d : TransparencyResponse) idx chip :
  nth_error (keyword_chips (render_grid s d)) idx = Some chip ->
  In (chip_selects chip) (keywords d).
Proof.
  unfold render_grid; simpl. intros H.
  apply nth_error_In in H. apply in_map_iff in H as (k & <- & I). exact I.
Qed.

Ltac sound_field :=
  simpl in *;
  try solve [ assumption
            | discriminate
            | intuition (try congruence; eauto)
            | intros; congruence
            | intros; simpl in *; intuition (try congruence; eauto) ].

Lemma step_sound ev m : sound m -> sound (step ev m).
Proof.
  intros [C E NF F U L T CS].
  pose proof (step_consistent ev m C) as C'.
  destruct m as [s qy pd cs]. unfold consistent in C. simpl in *.
  destruct ev.
  - (* TypeQuery *)
    unfold step in *; simpl in *. revert C'. case (isLoading s); intros C';
      constructor; sound_field.
  - (* Submit *)
    unfold step in *; simpl in *.
    destruct (Components.handleSubmit qy (isLoading s)) as [q|] eqn:H.
    + apply handleSubmit_some in H as (-> & _ & N).
      constructor; sound_field.
      intros t Ht. inversion Ht; subst; simpl. exact N.
    + constructor; sound_field.
  - (* ToggleFastMode *)
    unfold step in *; simpl in *. constructor; sound_field.
  - (* SelectAllResults *)
    unfold step in *. unfold render in *. cbn [app results_grid] in *.
    case_eq (isLoading s); intros Ld; rewrite Ld in *; cbn [negb] in *;
      [constructor; sound_field|].
    case_eq (data s); [intros d D|intros D]; rewrite D in *;
      [|constructor; sound_field].
    constructor; cbn [with_app app setActiveKeyword data activeKeyword error
                      loadingStep pending calls isLoading] in *; rewrite ?D;
      sound_field.
  - (* SelectKeyword *)
    unfold step in *. unfold render in *. cbn [app results_grid] in *.
    case_eq (isLoading s); intros Ld; rewrite Ld in *; cbn [negb] in *;
      [constructor; sound_field|].
    case_eq (data s); [intros d D|intros D]; rewrite D in *;
      [|constructor; sound_field].
    destruct (nth_error (keyword_chips (render_grid s d)) idx) as [chip|] eqn:N;
      [|constructor; cbn [app data activeKeyword error loadingStep pending calls] in *;
        rewrite ?D; sound_field].
    pose proof (nth_error_chip s d idx chip N) as I.
    constructor; cbn [with_app app setActiveKeyword data activeKeyword error
                      loadingStep pending calls isLoading] in *; rewrite ?D;
      sound_field.
  - (* ClearResults *)
    unfold step in *. unfold render in *. cbn [app clear_results_button] in *.
    destruct (is_some (data s) && negb (isLoading s))%bool;
      constructor; sound_field.
  - (* TimerFires *)
    unfold step in *; simpl in *.
    destruct pd as [t|]; simpl in *; [|constructor; sound_field].
    destruct t as [tq tf ts]; simpl in *.
    pose proof (T _ eq_refl) as Tq. simpl in Tq.
    destruct ts; simpl in *.
    + constructor; sound_field. intros t Ht; inversion Ht; subst; exact Tq.
    + unfold handleSearch_call in *. unfold stage_label in *. simpl in *.
      destruct tf; simpl in *; constructor; sound_field.
      all: try (intros t Ht; inversion Ht; subst; exact Tq).
      all: apply Forall_app; split; [exact CS|]; constructor; [exact Tq|constructor].
    + constructor; sound_field.
  - (* SearchSettles *)
    unfold step in *; simpl in *.
    destruct pd as [t|]; simpl in *; [|constructor; sound_field].
    destruct C as (Ld & D & A & Er).
    destruct (task_stage t) eqn:S; simpl in *; try (constructor; sound_field; fail).
    unfold handleSearch_settle in *.
    destruct outcome as [r|e]; simpl in *.
    + destruct (Nat.ltb 0 (List.length (keywords r))) eqn:K; simpl in *;
        constructor; sound_field.
      intros d Hd _. inversion Hd; subst.
      destruct (keywords d); [reflexivity|discriminate K].
    + constructor; sound_field.
Qed.

Lemma run_sound evs m : sound m -> sound (run evs m).
Proof.
  revert m. induction evs as [|ev evs IH]; intros m S; [exact S|].
  rewrite run_cons. apply IH. now apply step_sound.
Qed.

Lemma reachable_sound evs : sound (run evs boot).
Proof. apply run_sound, boot_sound. Qed.

(** *** The submit button *)

(** X7: the submit button is disabled exactly when [handleSubmit] would
    not call [onSearch]; when it is enabled, the query passed is the
    text of the input, with its white space. *)
Theorem submit_button_matches_handler (q : jsstring) (l : bool) :
  (Components.submit_disabled q l = true <-> Components.handleSubmit q l = None) /\
  (Components.submit_disabled q l = false <-> Components.handleSubmit q l = Some q).
Proof.
  unfold Components.submit_disabled, Components.handleSubmit.
  destruct (truthy_string (trim q)), l; simpl; repeat split; intros; congruence.
Qed.

(** *** What reaches the backend *)

(** X8: every call the page has made to the search carries a query
    with at least one code unit that is not white space. *)
Theorem calls_have_nonblank_queries (evs : list Event) (q : jsstring) (fast : bool) :
  In (q, fast) (calls (run evs boot)) ->
  trim q <> [] /\ exists c, In c q /\ is_white_space c = false.
Proof.
  intros H.
  pose proof (sound_calls _ (reachable_sound evs)) as CS.
  rewrite Forall_forall in CS. specialize (CS _ H). simpl in CS.
  split; [exact CS|].
  destruct (existsb (fun c => negb (is_white_space c)) q) eqn:X.
  - apply existsb_exists in X as (c & I & W). exists c. split; [exact I|].
    now destruct (is_white_space c).
  - exfalso. apply CS. apply trim_white. apply Forall_forall. intros c I.
    destruct (is_white_space c) eqn:W; [reflexivity|].
    assert (existsb (fun c => negb (is_white_space c)) q = true).
    { apply existsb_exists. exists c. rewrite W. auto. }
    congruence.
Qed.

Lemma calls_have_nonblank_queries_witness :
  trim Fixture.ev_query <> [].
Proof.
  apply (calls_have_nonblank_queries
           (Fixture.session Fixture.ev_query (Normal Fixture.ev_response))
           Fixture.ev_query false).
  left. reflexivity.
Defined.

Lemma step_calls ev m :
  consistent m ->
  List.length (calls (step ev m)) + in_flight m
    <= List.length (calls m) + (if is_settle ev then 1 else 0) + in_flight (step ev m).
Proof.
  intros C. destruct m as [s qy pd cs]. unfold consistent in C.
  cbn [app pending] in C.
  destruct ev; unfold step, in_flight; cbn [app query pending calls is_settle].
  - case (isLoading s); cbn [pending calls]; lia.
  - destruct pd as [t|].
    + destruct C as (L & _). rewrite L, handleSubmit_loading. cbn [pending calls]. lia.
    + destruct (Components.handleSubmit qy (isLoading s)); cbn [pending calls task_stage]; lia.
  - cbn [with_app pending calls]. lia.
  - destruct (results_grid (render s)); cbn [with_app pending calls]; lia.
  - destruct (results_grid (render s)) as [g|]; [|cbn [pending calls]; lia].
    destruct (nth_error (keyword_chips g) idx); cbn [with_app pending calls]; lia.
  - destruct (clear_results_button (render s)); cbn [with_app pending calls]; lia.
  - destruct pd as [t|]; [|cbn [pending calls]; lia].
    destruct (task_stage t) eqn:S; cbn [pending calls task_stage];
      rewrite ?S, ?length_app; simpl; lia.
  - destruct pd as [t|]; [|cbn [pending calls]; lia].
    destruct (task_stage t) eqn:S; cbn [pending calls]; rewrite ?S; lia.
Qed.

Lemma run_calls evs m :
  consistent m ->
  List.length (calls (run evs m)) + in_flight m
    <= List.length (calls m) + settles evs + in_flight (run evs m).
Proof.
  revert m. induction evs as [|ev evs IH]; intros m C; [simpl; unfold settles; simpl; lia|].
  rewrite run_cons.
  pose proof (step_calls ev m C) as S.
  pose proof (IH _ (step_consistent ev m C)) as R.
  unfold settles in *. simpl. destruct (is_settle ev); simpl; lia.
Qed.

(** X9: the page has never made more calls than searches have settled,
    plus the one that is in flight: a call goes out only after the one
    before it has settled. *)
Theorem one_call_at_a_time (evs : list Event) :
  List.length (calls (run evs boot))
    <= settles evs + in_flight (run evs boot) /\
  in_flight (run evs boot) <= 1.
Proof.
  split.
  - pose proof (run_calls evs boot boot_consistent) as R. simpl in R.
    unfold in_flight at 1 in R. simpl in R. lia.
  - unfold in_flight. destruct (pending (run evs boot)) as [t|]; [|lia].
    destruct (task_stage t); lia.
Qed.

(** *** One screen at a time *)


(** X11: while a submission is on its way the indicator shows the label
    of its stage; the label of the web search is shown only when the
    submission was made with fast mode off and the call has gone out,
    whatever the toggle says by then. *)
Theorem loading_label_follows_submission (evs : list Event) (t : Task) :
  pending (run evs boot) = Some t ->
  loading_indicator (render (app (run evs boot))) = Some (stage_label t) /\
  (stage_label t = lit "Executing real-time web searches..." <->
   task_fast t = false /\ task_stage t = AwaitSearch).
Proof.
  intros P. destruct (reachable_sound evs) as [C _ _ _ _ L _ _].
  unfold consistent in C. rewrite P in C, L. destruct C as (Ld & _).
  split.
  - unfold render; simpl. now rewrite Ld, L.
  - unfold stage_label. destruct (task_stage t), (task_fast t);
      split; try (intros [A B]); try discriminate; auto;
      intros H; vm_compute in H; discriminate H.
Qed.

(** A full-mode submission, with fast mode switched on while the call
    is in flight. *)
Lemma loading_label_follows_submission_witness :
  loading_indicator
    (render (app (run [TypeQuery Fixture.ev_query; Submit; TimerFires; TimerFires;
                       ToggleFastMode] boot)))
    = Some (lit "Executing real-time web searches...").
Proof.
  apply (loading_label_follows_submission
           [TypeQuery Fixture.ev_query; Submit; TimerFires; TimerFires; ToggleFastMode]
           {| task_query := Fixture.ev_query; task_fast := false;
              task_stage := AwaitSearch |} eq_refl).
Defined.

(** *** Clearing *)

(** X12: wherever the Clear Results button is shown, using it brings the
    page back to the empty state and drops the filter; the text of the
    input, the fast-mode flag and the calls made stay as they were, and
    nothing is submitted. *)
Theorem clear_results_returns_to_idle (evs : list Event) :
  clear_results_button (render (app (run evs boot))) = true ->
  let m := run evs boot in
  let m' := step ClearResults m in
  screen_of (render (app m')) = Some Idle /\
  data (app m') = None /\
  activeKeyword (app m') = None /\
  query m' = query m /\
  isFastMode (app m') = isFastMode (app m) /\
  calls m' = calls m /\
  pending m' = None.
Proof.
  intros B m m'.
  destruct (reachable_sound evs) as [C E _ _ _ _ _ _]. fold m in C, E, B.
  unfold consistent in C.
  assert (Ld : isLoading (app m) = false /\ exists d, data (app m) = Some d).
  { unfold render in B; simpl in B.
    destruct (data (app m)) as [d|]; [|discriminate B].
    destruct (isLoading (app m)); [discriminate B|]. eauto. }
  destruct Ld as (Ld & d & D).
  assert (P : pending m = None).
  { destruct (pending m); [|reflexivity]. destruct C as (L & _). congruence. }
  assert (Er : error (app m) = None).
  { destruct E as [E|[_ E]]; [exact E|congruence]. }
  unfold m', step. rewrite B. simpl.
  unfold screen_of, render. simpl. rewrite Ld, Er. simpl. repeat split; auto.
Qed.

Lemma clear_results_returns_to_idle_witness :
  let m := run (Fixture.session Fixture.ev_query (Normal Fixture.ev_response)) boot in
  screen_of (render (app (step ClearResults m))) = Some Idle /\
  query (step ClearResults m) = Fixture.ev_query.
Proof.
  cbv zeta.
  destruct (clear_results_returns_to_idle
              (Fixture.session Fixture.ev_query (Normal Fixture.ev_response)) eq_refl)
    as (S & _ & _ & Q & _).
  split; [exact S|exact Q].
Defined.

(** *** The filter *)


(** *** Success *)



End PageFacts.

(* ================================================================== *)
(** ** The results grid *)

Module GridFacts.
Import AiService App JSFacts AppFacts Page.

Lemma is_active_eq a k : is_active a k = true <-> a = Some k.
Proof.
  unfold is_active. destruct a as [x|]; [|split; discriminate].
  rewrite str_eqb_eq. split; congruence.
Qed.

(** X15: in a full-mode grid, when the All Results chip is the active
    one the line of shown sources gives its count; and when the active
    chip is one of a keyword that is neither empty nor the sentinel,
    that line gives this chip's count and the cards are the results
    tagged with its keyword, in their order, or the note that there are
    none. *)
Theorem shown_results_match_active_chip (s : State) (d : TransparencyResponse) :
  data s = Some d ->
  truthy_flag (AiService.isFastMode d) = false ->
  let g := render_grid s d in
  (chip_isActive (all_results_chip g) = true ->
   showing_sources g = Some (chip_resultCount (all_results_chip g))) /\
  (forall chip,
     In chip (keyword_chips g) -> chip_isActive chip = true ->
     chip_keyword chip <> [] -> chip_keyword chip <> all ->
     showing_sources g = Some (chip_resultCount chip) /\
     results_area g
       = match chip_resultCount chip with
         | O => NoResultsForKeyword
         | S _ => ResultCards
                    (filter (fun r => str_eqb (keyword r) (chip_keyword chip)) (results d))
         end).
Proof.
  intros D F g. unfold g, render_grid.
  cbn [all_results_chip keyword_chips showing_sources results_area
       chip_isActive chip_resultCount chip_keyword].
  rewrite F, D. cbn [negb]. split.
  - intros A. apply is_active_eq in A. rewrite A. reflexivity.
  - intros chip I A E N.
    apply in_map_iff in I as (k & <- & I).
    cbn [chip_isActive chip_resultCount chip_keyword] in *.
    apply is_active_eq in A. rewrite A.
    rewrite (AppClaims.filteredResults_keyword d k E N
             : filteredResults (Some d) (@Some jsstring k) = _).
    unfold count_for. split; [reflexivity|].
    destruct (filter (fun r => str_eqb (keyword r) k) (results d)); reflexivity.
Qed.

Lemma shown_results_match_active_chip_witness :
  let s := app (run (Fixture.session Fixture.ev_query (Normal Fixture.ev_response)
                       ++ [SelectKeyword 1]) boot) in
  showing_sources (render_grid s Fixture.ev_response) = Some 0 /\
  results_area (render_grid s Fixture.ev_response) = NoResultsForKeyword.
Proof.
  cbv zeta.
  refine (proj2 (shown_results_match_active_chip
                   (app (run (Fixture.session Fixture.ev_query (Normal Fixture.ev_response)
                                ++ [SelectKeyword 1]) boot))
                   Fixture.ev_response eq_refl eq_refl)
                {| chip_keyword := lit "EV pricing 2025"; chip_isActive := true;
                   chip_selects := lit "EV pricing 2025"; chip_resultCount := 0 |}
                _ eq_refl _ _).
  - right. left. reflexivity.
  - discriminate.
  - intro E. vm_compute in E. discriminate E.
Defined.

(** How often a keyword is listed. *)
Lemma listed_once (a : jsstring) (ks : list jsstring) :
  NoDup ks ->
  List.length (filter (str_eqb a) ks) <= 1 /\
  (List.length (filter (str_eqb a) ks) = 1 <-> In a ks).
Proof.
  induction 1 as [|k ks N _ IH]; simpl.
  - split; [lia|]. split; [discriminate|contradiction].
  - destruct (str_eqb a k) eqn:E; simpl.
    + apply str_eqb_eq in E. subst k.
      assert (Z : List.length (filter (str_eqb a) ks) = 0).
      { destruct IH as [L [I _]].
        destruct (List.length (filter (str_eqb a) ks)) as [|[|n]]; [reflexivity| |lia].
        exfalso. apply N. apply I. reflexivity. }
      rewrite Z. split; [lia|]. split; auto.
    + apply str_eqb_neq in E. destruct IH as [L I]. split; [exact L|].
      rewrite I. split; [auto|]. intros [->|H]; [contradiction|exact H].
Qed.

Lemma counts_cons (r : SearchResult) (rs : list SearchResult) (ks : list jsstring) :
  list_sum (map (fun k => List.length
                   (filter (fun x => str_eqb (keyword x) k) (r :: rs))) ks)
    = List.length (filter (str_eqb (keyword r)) ks)
      + list_sum (map (fun k => List.length
                         (filter (fun x => str_eqb (keyword x) k) rs)) ks).
Proof.
  induction ks as [|k ks IH]; simpl; [reflexivity|].
  simpl in IH. rewrite IH.
  destruct (str_eqb (keyword r) k); simpl; lia.
Qed.

Lemma counts_bounded (rs : list SearchResult) (ks : list jsstring) :
  NoDup ks ->
  list_sum (map (fun k => List.length
                   (filter (fun x => str_eqb (keyword x) k) rs)) ks)
    <= List.length rs /\
  (list_sum (map (fun k => List.length
                    (filter (fun x => str_eqb (keyword x) k) rs)) ks)
     = List.length rs <->
   forall r, In r rs -> In (keyword r) ks).
Proof.
  intros N. induction rs as [|r rs [L I]].
  - simpl. assert (Z : list_sum (map (fun _ : jsstring => 0) ks) = 0).
    { induction ks; simpl; auto. apply IHks. now inversion N. }
    rewrite Z. split; [lia|]. split; [contradiction|reflexivity].
  - rewrite counts_cons. destruct (listed_once (keyword r) ks N) as [O1 O2].
    split; [simpl; lia|]. split.
    + intros E r' [<-|H].
      * apply O2. simpl in E. lia.
      * apply I; [|exact H]. simpl in E. lia.
    + intros A.
      assert (E1 : List.length (filter (str_eqb (keyword r)) ks) = 1)
        by (apply O2, A; left; reflexivity).
      assert (E2 : list_sum (map (fun k => List.length
                      (filter (fun x => str_eqb (keyword x) k) rs)) ks)
                   = List.length rs)
        by (apply I; intros r' H; apply A; right; exact H).
      simpl. lia.
Qed.

(** X16: when the keywords of a response are distinct, the counts on the
    keyword chips add up to at most the count on the All Results chip,
    and to exactly that count when, and only when, every result is
    tagged with a listed keyword. *)
Theorem chip_counts_partition_results (s : State) (d : TransparencyResponse) :
  NoDup (keywords d) ->
  let g := render_grid s d in
  list_sum (map chip_resultCount (keyword_chips g))
    <= chip_resultCount (all_results_chip g) /\
  (list_sum (map chip_resultCount (keyword_chips g))
     = chip_resultCount (all_results_chip g) <->
   forall r, In r (results d) -> In (keyword r) (keywords d)).
Proof.
  intros N g. unfold g, render_grid. simpl.
  rewrite map_map. simpl. unfold count_for.
  exact (counts_bounded (results d) (keywords d) N).
Qed.

Lemma chip_counts_partition_results_witness :
  list_sum (map chip_resultCount
              (keyword_chips (render_grid App.initial Fixture.ev_response))) = 1.
Proof.
  destruct (chip_counts_partition_results App.initial Fixture.ev_response) as [_ [_ E]].
  - repeat constructor; simpl; intuition discriminate.
  - rewrite E; [reflexivity|].
    intros r [<-|[]]. left. reflexivity.
Defined.

End GridFacts.

(* ================================================================== *)
(** ** From the submit to the screen *)

Module EndToEnd.
Import AiService App JSFacts AppFacts Page.

Lemma session_state m q o :
  Components.handleSubmit (query m) (isLoading (app m)) = Some q ->
  app (run (search_session o) m)
    = handleSearch_settle o
        (handleSearch_call (isFastMode (app m))
           (handleSearch_strategies (handleSearch_begin (app m)))) /\
  calls (run (search_session o) m) = calls m ++ [(q, isFastMode (app m))].
Proof.
  intros H. unfold search_session, run, fold_left.
  assert (E : step Submit m
              = {| app := handleSearch_begin (app m); query := query m;
                   pending := Some {| task_query := q;
                                      task_fast := isFastMode (app m);
                                      task_stage := AwaitIntentDelay |};
                   calls := calls m |})
    by (unfold step; rewrite H; reflexivity).
  rewrite E. split; reflexivity.
Qed.

(** X17: a fast-mode submission whose call resolves with a value of the
    declared type makes one call, with the flag set, and ends on a grid
    that shows the fast-mode notice in place of result cards, no count
    of sources and no source list under the answer, whatever results
    the response carries, and lists the keywords of the response as the
    generated search queries. *)
Theorem fast_search_end_to_end
    (w : World) (q : jsstring) (r : TransparencyResponse) (m : Machine) :
  Components.handleSubmit (query m) (isLoading (app m)) = Some q ->
  isFastMode (app m) = true ->
  typed_search w q true = Some (Normal r) ->
  let m' := run (search_session (Normal r)) m in
  calls m' = calls m ++ [(q, true)] /\
  exists g,
    results_grid (render (app m')) = Some g /\
    results_area g = FastModeNotice /\
    showing_sources g = None /\
    (forall sy, synthesis g = Some sy -> synthesis_source_urls sy = None) /\
    executed_queries_panel g
      = match keywords r with
        | [] => None
        | _ :: _ => Some {| queries_heading := lit "Generated Search Queries";
                            queries_shown := keywords r |}
        end.
Proof.
  intros H F T m'.
  destruct (session_state m q (Normal r) H) as [S C]. fold m' in S, C.
  rewrite F in C. split; [exact C|].
  destruct (OrchestratorMore.typed_response_echoes_call w q true r T)
    as (M & _ & _ & _ & _ & Q).
  exists (render_grid (app m') r). rewrite S.
  unfold handleSearch_settle, handleSearch_call. rewrite F.
  assert (D : forall s, data (setLoadingStep []
                (setIsLoading false
                   (if 0 <? List.length (keywords r)
                    then setActiveKeyword (Some all) (setData (Some r) s)
                    else setData (Some r) s))) = Some r)
    by (intros s; destruct (0 <? List.length (keywords r)); reflexivity).
  assert (L : forall s, isLoading (setLoadingStep []
                (setIsLoading false
                   (if 0 <? List.length (keywords r)
                    then setActiveKeyword (Some all) (setData (Some r) s)
                    else setData (Some r) s))) = false)
    by (intros s; destruct (0 <? List.length (keywords r)); reflexivity).
  cbn [negb].
  split.
  - unfold render. cbn [results_grid]. rewrite L, D. reflexivity.
  - unfold render_grid.
    cbn [results_area showing_sources synthesis executed_queries_panel].
    rewrite M, Q. cbn [truthy_flag negb andb].
    repeat split.
    + intros sy Sy. destruct (truthy_opt (answer r)); [|discriminate Sy].
      destruct (answer r); [|discriminate Sy].
      rewrite andb_false_r in Sy. inversion Sy; reflexivity.
    + destruct (keywords r); reflexivity.
Qed.

Lemma fast_search_end_to_end_witness :
  let w := Fixture.answering Fixture.env_with_key
             (Fixture.body_only Fixture.fast_body_with_result) in
  let m := run [ToggleFastMode; TypeQuery (lit "q")] boot in
  exists r g,
    typed_search w (lit "q") true = Some (Normal r) /\
    results r <> [] /\
    results_grid (render (app (run (search_session (Normal r)) m))) = Some g /\
    results_area g = FastModeNotice.
Proof.
  cbv zeta.
  eexists. 
  destruct (fast_search_end_to_end
              (Fixture.answering Fixture.env_with_key
                 (Fixture.body_only Fixture.fast_body_with_result))
              (lit "q") _ (run [ToggleFastMode; TypeQuery (lit "q")] boot)
              eq_refl eq_refl eq_refl) as (_ & g & G & A & _).
  exists g. split; [reflexivity|]. split; [discriminate|]. split; [exact G|exact A].
Defined.



End EndToEnd.

(* ================================================================== *)
(** ** Sources and copies *)

Module SourcesFacts.
Import AiService App JSFacts Sources.

Lemma existsb_str_In x l : existsb (str_eqb x) l = true <-> In x l.
Proof.
  rewrite existsb_exists. split.
  - intros (y & I & E). apply str_eqb_eq in E. now subst.
  - intros I. exists x. split; [exact I|apply str_eqb_refl].
Qed.

Lemma unseen_app seen h x :
  unseen (seen ++ [h]) x = (unseen seen x && negb (str_eqb x h))%bool.
Proof.
  unfold unseen. rewrite existsb_app. simpl. rewrite orb_false_r.
  now rewrite negb_orb.
Qed.

Lemma filter_filter {A} (p q : A -> bool) l :
  filter p (filter q l) = filter (fun x => (q x && p x)%bool) l.
Proof.
  induction l as [|a l IH]; simpl; [reflexivity|].
  destruct (q a); simpl; [destruct (p a); simpl|]; now rewrite IH.
Qed.

(** Adding to a set that already holds [seen]. *)
Lemma add_all_spec l : forall seen,
  add_all seen l = seen ++ filter (unseen seen) (add_all [] l).
Proof.
  induction l as [|h l IH]; intros seen.
  - simpl. now rewrite app_nil_r.
  - cbn [add_all existsb app]. change ([] ++ [h]) with [h]. rewrite (IH [h]).
    cbn [app]. simpl.
    rewrite filter_filter.
    destruct (existsb (str_eqb h) seen) eqn:X.
    + assert (U : unseen seen h = false) by (unfold unseen; now rewrite X).
      rewrite U, IH. f_equal.
      apply filter_ext_in. intros x _.
      unfold unseen at 2. cbn [existsb]. rewrite orb_false_r.
      destruct (str_eqb x h) eqn:E; cbn [negb andb]; [|reflexivity].
      apply str_eqb_eq in E. subst x. exact U.
    + assert (U : unseen seen h = true) by (unfold unseen; now rewrite X).
      rewrite U, IH, <- app_assoc. f_equal.
      change ([h] ++ filter (unseen (seen ++ [h])) (add_all [] l))
        with (h :: filter (unseen (seen ++ [h])) (add_all [] l)).
      f_equal.
      apply filter_ext_in. intros x _.
      rewrite unseen_app. unfold unseen at 2. cbn [existsb]. rewrite orb_false_r.
      apply andb_comm.
Qed.

(** The first value stays first; later copies of it are dropped. *)
Lemma distinct_cons h l :
  distinct (h :: l) = h :: filter (fun x => negb (str_eqb x h)) (distinct l).
Proof.
  unfold distinct. simpl. rewrite add_all_spec. simpl. f_equal.
  apply filter_ext. intros x. unfold unseen. simpl. now rewrite orb_false_r.
Qed.

Lemma distinct_In l x : In x (distinct l) <-> In x l.
Proof.
  induction l as [|h l IH]; [simpl; tauto|].
  rewrite distinct_cons. simpl. rewrite filter_In, IH.
  destruct (str_eqb x h) eqn:E.
  - apply str_eqb_eq in E. subst. simpl. intuition discriminate.
  - apply str_eqb_neq in E. simpl. intuition congruence.
Qed.

Lemma distinct_NoDup l : NoDup (distinct l).
Proof.
  induction l as [|h l IH]; [constructor|].
  rewrite distinct_cons. constructor.
  - rewrite filter_In. intros [_ E]. now rewrite str_eqb_refl in E.
  - now apply NoDup_filter.
Qed.

Lemma hostnames_Forall2 hostname urls hs :
  hostnames hostname urls = Normal hs <->
  Forall2 (fun u h => hostname u = Normal h) urls hs.
Proof.
  revert hs. induction urls as [|u urls IH]; intros hs; simpl.
  - split; [intros E; inversion E; constructor|intros F; inversion F; reflexivity].
  - destruct (hostname u) as [h|e] eqn:H.
    + destruct (hostnames hostname urls) as [hs'|e] eqn:R.
      * split.
        -- intros E; inversion E; subst. constructor; [exact H|now apply IH].
        -- intros F; inversion F; subst. apply IH in H4. inversion H4; subst.
           congruence.
      * split; [discriminate|].
        intros F; inversion F; subst. apply IH in H4. discriminate H4.
    + split; [discriminate|]. intros F; inversion F; subst. congruence.
Qed.

Lemma hosts_of_urls (hostname : jsstring -> completion jsstring) urls hs h :
  Forall2 (fun u h => hostname u = Normal h) urls hs ->
  In h hs <-> exists u, In u urls /\ hostname u = Normal h.
Proof.
  induction 1 as [|u h' us hs' Hu _ IH]; simpl.
  - split; [contradiction|intros (u & [] & _)].
  - rewrite IH. split.
    + intros [<-|(u' & I & Hu')]; [exists u; auto|exists u'; auto].
    + intros (u' & [<-|I] & Hu'); [left; congruence|right; eauto].
Qed.

(** X19: the host names listed under the answer are those of the URLs
    that the tree records, each once, the host of the first URL first
    and every later host after the hosts that came before it. *)
Theorem source_hosts_are_distinct
    (hostname : jsstring -> completion jsstring) (sy : Synthesis) (hs : list jsstring) :
  source_hosts hostname sy = Normal (Some hs) ->
  exists urls all_hosts,
    synthesis_source_urls sy = Some urls /\
    Forall2 (fun u h => hostname u = Normal h) urls all_hosts /\
    hs = distinct all_hosts /\
    NoDup hs /\
    (forall h, In h hs <-> exists u, In u urls /\ hostname u = Normal h) /\
    (forall h l, distinct (h :: l)
                 = h :: filter (fun x => negb (str_eqb x h)) (distinct l)).
Proof.
  unfold source_hosts. intros H.
  destruct (synthesis_source_urls sy) as [urls|]; [|discriminate H].
  destruct (hostnames hostname urls) as [all_hosts|e] eqn:R; [|discriminate H].
  inversion H; subst hs. clear H.
  apply hostnames_Forall2 in R.
  exists urls, all_hosts.
  split; [reflexivity|]. split; [exact R|]. split; [reflexivity|].
  split; [apply distinct_NoDup|]. split; [|apply distinct_cons].
  intros h. rewrite distinct_In. exact (hosts_of_urls hostname urls all_hosts h R).
Qed.

Lemma source_hosts_are_distinct_witness :
  source_hosts https_host
    {| synthesis_answer := lit "...";
       synthesis_source_urls :=
         Some [lit "https://a.example/x"; lit "https://b.example/";
               lit "https://a.example/y"] |}
  = Normal (Some [lit "a.example"; lit "b.example"]).
Proof.
  destruct (source_hosts_are_distinct https_host
              {| synthesis_answer := lit "...";
                 synthesis_source_urls :=
                   Some [lit "https://a.example/x"; lit "https://b.example/";
                         lit "https://a.example/y"] |}
              [lit "a.example"; lit "b.example"] eq_refl) as (urls & _).
  reflexivity.
Defined.

(** X20: in a full-mode grid with an answer, the host names under the
    answer are computed from the URL of every result, shown or not; so
    they can be listed exactly when every result has a URL the parser
    accepts, and one result with a URL it rejects makes the computation
    throw. *)
Theorem one_bad_url_breaks_the_sources
    (hostname : jsstring -> completion jsstring)
    (s : State) (d : TransparencyResponse) :
  truthy_opt (answer d) = true ->
  truthy_flag (AiService.isFastMode d) = false ->
  results d <> [] ->
  exists sy,
    synthesis (render_grid s d) = Some sy /\
    synthesis_source_urls sy = Some (map url (results d)) /\
    ((exists hs, source_hosts hostname sy = Normal (Some hs)) <->
     (forall r, In r (results d) -> exists h, hostname (url r) = Normal h)) /\
    (forall r e, In r (results d) -> hostname (url r) = Throw e ->
                 exists e', source_hosts hostname sy = Throw e').
Proof.
  intros A F R.
  assert (S : exists a, synthesis (render_grid s d)
                = Some {| synthesis_answer := a;
                          synthesis_source_urls := Some (map url (results d)) |}).
  { unfold render_grid; simpl. rewrite A, F.
    destruct (answer d) as [a|]; [|discriminate A].
    destruct (results d); [contradiction|]. simpl. eauto. }
  destruct S as [a S]. eexists. split; [exact S|]. split; [reflexivity|].
  unfold source_hosts; simpl.
  assert (G : (exists hs, hostnames hostname (map url (results d)) = Normal hs) <->
              forall r, In r (results d) -> exists h, hostname (url r) = Normal h).
  { clear. induction (results d) as [|r rs IH]; simpl.
    - split; [intros _ r []|eauto].
    - destruct (hostname (url r)) as [h|e] eqn:H.
      + destruct (hostnames hostname (map url rs)) as [hs|e] eqn:Hs.
        * split; [|eauto]. intros _ r' [<-|I]; [eauto|]. apply IH; eauto.
        * split.
          -- intros [hs E]; discriminate E.
          -- intros A. destruct (proj2 IH) as [hs E]; [auto|discriminate E].
      + split.
        * intros [hs E]; discriminate E.
        * intros A. destruct (A r) as [h E]; [auto|congruence]. }
  split.
  - rewrite <- G. split.
    + intros [hs E]. destruct (hostnames hostname (map url (results d))); [eauto|discriminate E].
    + intros [hs E]. rewrite E. eauto.
  - intros r e I H.
    destruct (hostnames hostname (map url (results d))) as [hs|e'] eqn:E; [|eauto].
    exfalso. destruct (proj1 G (ex_intro _ hs eq_refl) r I) as [h H']. congruence.
Qed.

Lemma one_bad_url_breaks_the_sources_witness :
  exists sy e,
    synthesis (render_grid App.initial with_bad_url) = Some sy /\
    source_hosts https_host sy = Throw e.
Proof.
  destruct (one_bad_url_breaks_the_sources https_host App.initial with_bad_url
              eq_refl eq_refl ltac:(discriminate))
    as (sy & S & _ & _ & B).
  destruct (B no_scheme TypeError ltac:(right; left; reflexivity) eq_refl) as [e E].
  exists sy, e. split; [exact S|exact E].
Defined.

End SourcesFacts.

Module CopyingFacts.
Import AiService JSFacts Copying.

Lemma join_nil_iff (qs : list jsstring) : join qs = [] <-> qs = [] \/ qs = [[]].
Proof.
  destruct qs as [|a [|b qs]]; simpl.
  - split; auto.
  - split; [intros ->; auto|intros [H|H]; [discriminate H|now inversion H]].
  - split.
    + intros H. apply app_eq_nil in H as [_ H]. discriminate H.
    + intros [H|H]; discriminate H.
Qed.

Lemma lines_from_plain (q cur rest : jsstring) :
  ~ In 10%N q ->
  lines_from cur (q ++ 10%N :: rest) = (rev cur ++ q) :: lines_from [] rest.
Proof.
  revert cur. induction q as [|c q IH]; intros cur N; simpl.
  - now rewrite app_nil_r.
  - destruct (N.eqb c 10) eqn:E.
    + apply N.eqb_eq in E. subst c. exfalso. apply N. left. reflexivity.
    + rewrite IH by (intros I; apply N; right; exact I).
      simpl. now rewrite <- app_assoc.
Qed.

Lemma lines_from_last (q cur : jsstring) :
  ~ In 10%N q -> lines_from cur q = [rev cur ++ q].
Proof.
  revert cur. induction q as [|c q IH]; intros cur N; simpl.
  - now rewrite app_nil_r.
  - destruct (N.eqb c 10) eqn:E.
    + apply N.eqb_eq in E. subst c. exfalso. apply N. left. reflexivity.
    + rewrite IH by (intros I; apply N; right; exact I).
      simpl. now rewrite <- app_assoc.
Qed.

Lemma lines_join (qs : list jsstring) :
  qs <> [] -> Forall (fun q => ~ In 10%N q) qs -> lines (join qs) = qs.
Proof.
  unfold lines. induction qs as [|a qs IH]; [contradiction|].
  intros _ F. inversion F as [|? ? Na Fq]; subst.
  destruct qs as [|b qs].
  - simpl. now rewrite lines_from_last.
  - change (join (a :: b :: qs)) with (a ++ 10%N :: join (b :: qs)).
    rewrite lines_from_plain by exact Na. simpl rev. simpl app at 1.
    f_equal. apply IH; [discriminate|exact Fq].
Qed.

(** X21: Copy All hands the clipboard the queries joined by line feeds,
    and nothing when there is no list of queries, when the list is
    empty, or when its only query is the empty string; whenever no
    query contains a line feed, the lines of the text it hands over are
    the queries again. *)
Theorem copy_all_writes_the_queries (d : TransparencyResponse) :
  match actualQueries d with
  | None => copyAll d = None
  | Some qs =>
      (copyAll d = None <-> qs = [] \/ qs = [[]]) /\
      (forall text, copyAll d = Some text ->
         text = join qs /\
         (Forall (fun q => ~ In 10%N q) qs -> lines text = qs))
  end.
Proof.
  unfold copyAll. destruct (actualQueries d) as [qs|]; [|reflexivity].
  cbv zeta. split.
  - rewrite <- join_nil_iff. destruct (join qs); simpl; split; congruence.
  - intros text H. destruct (join qs) eqn:J; simpl in H; [discriminate H|].
    inversion H; subst text. split; [reflexivity|]. intros F.
    rewrite <- J. apply lines_join; [|exact F].
    intros ->. discriminate J.
Qed.

Lemma all_timeouts_fire (query : jsstring) (n : nat) : forall b w,
  copied (row_run query (repeat TimeoutFires (S n))
            {| copied := b; timeouts := S n; written := w |}) = false.
Proof.
  induction n as [|n IH]; intros b w; [reflexivity|].
  change (repeat TimeoutFires (S (S n))) with (TimeoutFires :: repeat TimeoutFires (S n)).
  exact (IH false w).
Qed.

Lemma copy_all_writes_the_queries_witness :
  copyAll Fixture.ev_response = None /\
  lines (join [lit "ev range"; lit "ev price 2025"])
    = [lit "ev range"; lit "ev price 2025"].
Proof.
  pose proof (copy_all_writes_the_queries Fixture.ev_response) as [E _].
  split; [apply E; left; reflexivity|].
  pose proof (copy_all_writes_the_queries
                {| keywords := []; results := [];
                   actualQueries := Some [lit "ev range"; lit "ev price 2025"];
                   isFastMode := None; answer := None |}) as [_ L].
  destruct (L (join [lit "ev range"; lit "ev price 2025"]) eq_refl) as [_ R].
  apply R. repeat constructor; intro I; vm_compute in I; intuition discriminate.
Defined.

(** X22: on a query row, every click on the copy button hands the query
    to the clipboard once; the mark that says so is shown only while a
    timeout that will remove it is still to fire, and it is gone once
    all of them have fired. *)
Theorem copied_mark_is_temporary (query : jsstring) (evs : list RowEvent) :
  let r := row_run query evs row_initial in
  (copied r = true -> 0 < timeouts r) /\
  written r = repeat query (clicks evs) /\
  timeouts r <= clicks evs /\
  copied (row_run query (repeat TimeoutFires (timeouts r)) r) = false.
Proof.
  cbv zeta.
  assert (G : forall evs r0,
            (copied r0 = true -> 0 < timeouts r0) ->
            let r := row_run query evs r0 in
            (copied r = true -> 0 < timeouts r) /\
            written r = written r0 ++ repeat query (clicks evs) /\
            timeouts r <= timeouts r0 + clicks evs).
  { clear evs. induction evs as [|ev evs IH]; intros r0 I; cbv zeta.
    - simpl. rewrite app_nil_r. repeat split; auto. unfold clicks; simpl; lia.
    - change (row_run query (ev :: evs) r0)
        with (row_run query evs (row_step query ev r0)).
      destruct ev; simpl row_step.
      + destruct (IH (handleCopy query r0)) as (A & B & C); [simpl; lia|].
        split; [exact A|]. unfold clicks in *. simpl in *.
        rewrite B, <- app_assoc. split; [reflexivity|lia].
      + case_eq (timeouts r0); [intros T|intros n T].
        * destruct (IH r0 I) as (A & B & C). unfold clicks in *. simpl.
          repeat split; auto; lia.
        * destruct (IH {| copied := false; timeouts := n; written := written r0 |})
            as (A & B & C); [simpl; discriminate|].
          unfold clicks in *. simpl in *. repeat split; auto; lia. }
  destruct (G evs row_initial) as (A & B & C); [simpl; discriminate|].
  simpl in B, C. repeat split; auto.
  set (r := row_run query evs row_initial) in *. clearbody r.
  destruct r as [c n w]. simpl in *.
  destruct n as [|n]; simpl.
  - destruct c; [|reflexivity]. specialize (A eq_refl). lia.
  - exact (all_timeouts_fire query n c w).
Qed.

(** Two clicks, then the timeout of the first: the mark is gone while
    the timeout of the second click is still to fire. *)
Lemma copied_mark_is_temporary_witness :
  let r := row_run (lit "q") [ClickCopy; ClickCopy; TimeoutFires] row_initial in
  copied r = false /\ timeouts r = 1 /\ written r = [lit "q"; lit "q"].
Proof.
  cbv zeta.
  destruct (copied_mark_is_temporary (lit "q") [ClickCopy; ClickCopy; TimeoutFires])
    as (_ & W & _ & _).
  split; [reflexivity|]. split; [reflexivity|exact W].
Defined.

End CopyingFacts.
